(** * Student database console application: model and properties

    Shallow embedding of [src/student_database.py]: the [StudentDatabase]
    class (a thin data-access layer over one psycopg2 connection and cursor)
    and the interactive [main] loop.

    The Python code is effectful: it talks to a PostgreSQL session, reads
    standard input and prints.  All of this is threaded through one [World]
    value by a state-and-exception monad [M].  The database driver and the
    server are the environment of the program; they are modelled by the
    record [Db] and the driver calls [cursor_execute], [cursor_fetchone],
    [cursor_fetchall], [connection_commit] and [connection_rollback].

    Python's built-ins [str.strip], [str.lower], [int] and
    [datetime.strptime] are library code: the program is modelled over
    arbitrary functions in their place (variables of the section
    [Application]), so that what is proved of the program holds whatever
    these do on any text.  A Rocq [string] stands for a Python [str] through
    its UTF-8 encoding.

    The environment is taken as follows.  One session talks to the server
    and no other operator writes to the table.  A call of [execute] or
    [commit] can fail for a reason of the environment's at any time
    ([faults]); [rollback] does not fail.  psycopg2 refuses to bind a text
    that holds NUL: [execute] raises [ValueError] and sends nothing.  The
    standard input is decoded strictly: [input] raises [UnicodeDecodeError]
    on bytes that do not decode, and [EOFError] at the end.  Printing does
    not fail.  *)

From Stdlib Require Import ZArith List String Ascii Bool Lia Eqdep_dec.
From Stdlib Require Import Sorting.Sorted Sorting.Permutation.
Import ListNotations.

Local Open Scope string_scope.
Local Open Scope list_scope.
Local Open Scope Z_scope.

(* ================================================================== *)
(** * The built-ins on ASCII text *)
(* ================================================================== *)

(** The modules [PyStr] and [PyDate] give [str.strip], [str.lower], [int]
    and [datetime.strptime(_, '%Y-%m-%d')] as they act on ASCII text.  They
    serve to run the model on ASCII inputs; on text with other characters
    Python does more (it strips Unicode white space and reads Unicode
    decimal digits), and no theorem about the program relies on these
    definitions. *)
Module PyStr.

Definition code (c : ascii) : N := N_of_ascii c.

(** [str.isspace] on one character: TAB, LF, VT, FF, CR, the four
    separators FS, GS, RS, US, and the space. *)
Definition is_space (c : ascii) : bool :=
  ((9 <=? code c) && (code c <=? 13) || (28 <=? code c) && (code c <=? 32))%N.

Definition is_digit (c : ascii) : bool :=
  ((48 <=? code c) && (code c <=? 57))%N.

Definition digit_value (c : ascii) : Z := Z.of_N (code c) - 48.

Definition is_upper (c : ascii) : bool :=
  ((65 <=? code c) && (code c <=? 90))%N.

Definition lower_char (c : ascii) : ascii :=
  if is_upper c then ascii_of_N (code c + 32) else c.

Fixpoint drop_spaces (l : list ascii) : list ascii :=
  match l with
  | [] => []
  | c :: l' => if is_space c then drop_spaces l' else l
  end.

(** [s.strip()] *)
Definition strip (s : string) : string :=
  string_of_list_ascii
    (rev (drop_spaces (rev (drop_spaces (list_ascii_of_string s))))).

(** [s.lower()] *)
Definition lower (s : string) : string :=
  string_of_list_ascii (map lower_char (list_ascii_of_string s)).

(** Decimal digits with single underscores allowed between two digits,
    as [int] accepts them.  [prev] tells whether the previous character was
    a digit. *)
Fixpoint digits (acc : Z) (prev : bool) (l : list ascii) : option Z :=
  match l with
  | [] => if prev then Some acc else None
  | c :: l' =>
      if is_digit c then digits (10 * acc + digit_value c) true l'
      else if Ascii.eqb c "_" && prev then digits acc false l'
      else None
  end.

(** The conversion refuses more than [sys.int_info.default_max_str_digits]
    digits. *)
Definition max_str_digits : nat := 4300.

Definition too_long (l : list ascii) : bool :=
  (max_str_digits <? List.length (filter is_digit l))%nat.

(** [int(s)] for a string argument: surrounding white space is ignored, an
    optional sign is followed by the digits; [None] stands for the
    [ValueError] Python raises. *)
Definition int (s : string) : option Z :=
  let l := list_ascii_of_string (strip s) in
  if too_long l then None
  else
    match l with
    | "+"%char :: l' => digits 0 false l'
    | "-"%char :: l' => option_map Z.opp (digits 0 false l')
    | _ => digits 0 false l
    end.

End PyStr.

(* ================================================================== *)
(** * Calendar dates and [datetime.strptime(_, '%Y-%m-%d')] on ASCII text *)
(* ================================================================== *)

Record Date := mkDate { year : Z; month : Z; day : Z }.

Module PyDate.
Import PyStr.

Definition is_leap (y : Z) : bool :=
  (y mod 4 =? 0) && (negb (y mod 100 =? 0) || (y mod 400 =? 0)).

Definition days_in_month (y m : Z) : Z :=
  if m =? 2 then (if is_leap y then 29 else 28)
  else if (m =? 4) || (m =? 6) || (m =? 9) || (m =? 11) then 30
  else 31.

(** The checks of the [datetime.date] constructor: [MINYEAR = 1],
    [MAXYEAR = 9999]. *)
Definition valid_date (y m d : Z) : bool :=
  (1 <=? y) && (y <=? 9999) && (1 <=? m) && (m <=? 12) &&
  (1 <=? d) && (d <=? days_in_month y m).

Definition in_range (lo hi : N) (c : ascii) : bool :=
  ((lo <=? code c) && (code c <=? hi))%N.

(** [%Y] is the pattern [\d\d\d\d]. *)
Definition match_Y (l : list ascii) : option (Z * list ascii) :=
  match l with
  | a :: b :: c :: d :: l' =>
      if is_digit a && is_digit b && is_digit c && is_digit d
      then Some (1000 * digit_value a + 100 * digit_value b
                 + 10 * digit_value c + digit_value d, l')
      else None
  | _ => None
  end.

(** [%m] is the pattern [1[0-2]|0[1-9]|[1-9]], alternatives tried in this
    order. *)
Definition match_m (l : list ascii) : option (Z * list ascii) :=
  match l with
  | a :: b :: l' =>
      if Ascii.eqb a "1" && in_range 48 50 b
      then Some (10 + digit_value b, l')
      else if Ascii.eqb a "0" && in_range 49 57 b
      then Some (digit_value b, l')
      else if in_range 49 57 a then Some (digit_value a, b :: l')
      else None
  | [a] => if in_range 49 57 a then Some (digit_value a, []) else None
  | [] => None
  end.

(** [%d] is the pattern [3[0-1]|[1-2]\d|0[1-9]|[1-9]| [1-9]]. *)
Definition match_d (l : list ascii) : option (Z * list ascii) :=
  match l with
  | a :: b :: l' =>
      if Ascii.eqb a "3" && in_range 48 49 b
      then Some (30 + digit_value b, l')
      else if in_range 49 50 a && is_digit b
      then Some (10 * digit_value a + digit_value b, l')
      else if Ascii.eqb a "0" && in_range 49 57 b
      then Some (digit_value b, l')
      else if in_range 49 57 a then Some (digit_value a, b :: l')
      else if Ascii.eqb a " " && in_range 49 57 b
      then Some (digit_value b, l')
      else None
  | [a] => if in_range 49 57 a then Some (digit_value a, []) else None
  | [] => None
  end.

Definition match_dash (l : list ascii) : option (list ascii) :=
  match l with
  | "-"%char :: l' => Some l'
  | _ => None
  end.

(** [datetime.strptime(s, '%Y-%m-%d')]: the format's regular expression
    must match a prefix of [s], nothing may remain after it, and the three
    numbers must form a date.  [None] stands for [ValueError]. *)
Definition strptime (s : string) : option Date :=
  match match_Y (list_ascii_of_string s) with
  | None => None
  | Some (y, l1) =>
      match match_dash l1 with
      | None => None
      | Some l2 =>
          match match_m l2 with
          | None => None
          | Some (m, l3) =>
              match match_dash l3 with
              | None => None
              | Some l4 =>
                  match match_d l4 with
                  | Some (d, []) =>
                      if valid_date y m d then Some (mkDate y m d) else None
                  | _ => None
                  end
              end
          end
      end
  end.

End PyDate.

(* ================================================================== *)
(** * Data model *)
(* ================================================================== *)

(** Whether a text holds the NUL character.  psycopg2 refuses to bind such
    a text to a statement, and a [text] column cannot hold one. *)
Definition has_nul (s : string) : bool :=
  existsb (fun c => Ascii.eqb c Ascii.zero) (list_ascii_of_string s).

(** A value of a [text] column: a string without NUL. *)
Record Text := mkText {
  text_of : string;
  text_ok : has_nul text_of = false
}.

(** The column value for a string that holds no NUL. *)
Definition adapt_text (s : string) : option Text :=
  (if has_nul s as b return has_nul s = b -> option Text
   then fun _ => None
   else fun H => Some (mkText s H)) eq_refl.

Definition empty_text : Text := mkText "" eq_refl.

(** The same as a total function; it is only applied to strings that hold
    no NUL (a string that does stands for the empty text). *)
Definition to_text (s : string) : Text :=
  match adapt_text s with
  | Some t => t
  | None => empty_text
  end.

Arguments to_text : simpl never.

(** One row of the [students] table, in column order, as the tuple that
    [SELECT *] yields and [getAllStudents] unpacks (line 83). *)
Record Student := stored_row {
  student_id : Z;
  first_text : Text;
  last_text : Text;
  email_text : Text;
  enrollment_date : Date
}.

Definition first_name (s : Student) : string := text_of (first_text s).

Definition last_name (s : Student) : string := text_of (last_text s).

Definition email (s : Student) : string := text_of (email_text s).

(** The row with the given column values. *)
Definition mkStudent (id : Z) (first last mail : string) (date : Date)
  : Student :=
  stored_row id (to_text first) (to_text last) (to_text mail) date.

Definition with_email (e : string) (s : Student) : Student :=
  stored_row (student_id s) (first_text s) (last_text s) (to_text e)
    (enrollment_date s).

(** The tuples a cursor hands back, by the statement that produced them. *)
Inductive Row :=
| RowStudent (s : Student)              (* SELECT * *)
| RowInfo (first last mail : string)    (* SELECT first_name, last_name, email *)
| RowId (id : Z).                       (* RETURNING student_id *)

(** The five SQL statements of the source with their bound parameters, in
    the order of the parameter tuple passed to [cursor.execute]. *)
Inductive Query :=
| SelectAll                                   (* line 67 *)
| InsertStudent (first last mail date : string)   (* lines 112-116 *)
| SelectById (id : Z)                         (* lines 151 and 203 *)
| UpdateEmail (new_email : string) (id : Z)   (* lines 162-166 *)
| DeleteById (id : Z).                        (* line 214 *)

(** What the session sends to the server. *)
Inductive Stmt :=
| Exec (q : Query)
| Commit
| Rollback
| CloseCursor
| CloseConnection.

(** Subclasses of [psycopg2.Error] that the model distinguishes. *)
Inductive DbErr :=
| OperationalError
| InFailedSqlTransaction
| UniqueViolation
| InvalidDatetimeFormat
| SequenceLimit.

(** Python exceptions. [Error] is [psycopg2.Error]; [UnicodeDecodeError] is
    a subclass of [ValueError]; all are subclasses of [Exception]. *)
Inductive Exn :=
| Error (e : DbErr)
| ValueError
| UnicodeDecodeError
| TypeError
| EOFError.

Definition is_Error (e : Exn) : bool :=
  match e with Error _ => true | _ => false end.

(** [except ValueError] also catches the subclass. *)
Definition is_ValueError (e : Exn) : bool :=
  match e with ValueError | UnicodeDecodeError => true | _ => false end.

(** What is waiting on the standard input: a line of text, or bytes that
    the decoder of the standard input refuses. *)
Inductive Input :=
| Line (s : string)
| Undecodable.

Definition is_Exception (e : Exn) : bool := true.

(** Prompts passed to [input]. *)
Inductive Prompt :=
| PChoice | PFirstName | PLastName | PEmail | PDate
| PStudentId | PNewEmail | PDeleteId | PConfirm (id : Z) | PContinue.

(** What the program writes to standard output: one constructor per [print]
    statement (or per run of adjacent ones that always occur together), with
    the values interpolated into the text. *)
Inductive Msg :=
| MsgPrompt (p : Prompt)
| MsgConnected                                    (* line 49 *)
| MsgConnectError (e : Exn)                       (* line 52 *)
| MsgListHeader                                   (* lines 74-79 *)
| MsgStudentRow (s : Student)                     (* lines 84-85 *)
| MsgTotal (n : nat)                              (* line 86 *)
| MsgNoStudents                                   (* line 88 *)
| MsgListFooter                                   (* line 90 *)
| MsgRetrieveError (e : Exn)                      (* line 94 *)
| MsgAdded (first last : string) (id : Z)         (* lines 128-129 *)
| MsgAddError (e : Exn)                           (* line 135 *)
| MsgNotFound (id : Z)                            (* lines 156 and 208 *)
| MsgUpdated (first last old_email new_email : string) (* lines 176-179 *)
| MsgNoChanges (id : Z)                           (* line 182 *)
| MsgUpdateError (e : Exn)                        (* line 188 *)
| MsgDeleted (first last : string) (id : Z) (mail : string)
                                                  (* lines 224-225 *)
| MsgNoneDeleted (id : Z)                         (* line 228 *)
| MsgDeleteError (e : Exn)                        (* line 234 *)
| MsgClosed                                       (* line 246 *)
| MsgMenu                                         (* lines 251-259 *)
| MsgBanner                                       (* lines 267-269 *)
| MsgAddHeading                                   (* line 298 *)
| MsgInvalidDate                                  (* line 311 *)
| MsgUpdateHeading                                (* line 315 *)
| MsgInvalidId                                    (* lines 321 and 336 *)
| MsgDeleteHeading                                (* line 325 *)
| MsgCancelled                                    (* line 334 *)
| MsgExiting                                      (* line 340 *)
| MsgInvalidChoice                                (* line 344 *)
| MsgErrorOccurred (e : Exn)                      (* line 352 *)
| MsgThanks.                                      (* lines 354-355 *)

(* ================================================================== *)
(** * The store: a PostgreSQL session seen through psycopg2 *)
(* ================================================================== *)

(** Modelled from the spec: the [students] table and its constraints.  The
    schema is not part of the source file; the specification gives it as
    [students(identifier integer primary key generated, first_name text,
    last_name text, email text unique, enrollment_date date)].

    [durable] is the committed content of the table and [table] the content
    as the open transaction sees it.  [seq] is the last value of the
    identifier sequence (sequences are not rolled back).  [tx_failed] tells
    whether the open transaction is in the failed state, in which the server
    refuses every statement until a rollback.  [results] and [rowcount] are
    the cursor's result set and its [rowcount] attribute.  [faults] is the
    environment's schedule: one flag for each coming [execute] or [commit],
    [true] when that call fails for a reason outside the program (lost
    connection, server shutting down); an exhausted schedule means no more
    such failures.  [log] records the statements sent, oldest first. *)
Record Db := mkDb {
  durable : list Student;
  table : list Student;
  seq : Z;
  tx_failed : bool;
  results : list Row;
  rowcount : Z;
  faults : list bool;
  log : list Stmt
}.

Definition set_table (t : list Student) (d : Db) : Db :=
  mkDb (durable d) t (seq d) (tx_failed d) (results d) (rowcount d)
       (faults d) (log d).

Definition set_durable (t : list Student) (d : Db) : Db :=
  mkDb t (table d) (seq d) (tx_failed d) (results d) (rowcount d)
       (faults d) (log d).

Definition set_seq (n : Z) (d : Db) : Db :=
  mkDb (durable d) (table d) n (tx_failed d) (results d) (rowcount d)
       (faults d) (log d).

Definition set_tx_failed (b : bool) (d : Db) : Db :=
  mkDb (durable d) (table d) (seq d) b (results d) (rowcount d)
       (faults d) (log d).

Definition set_results (rs : list Row) (d : Db) : Db :=
  mkDb (durable d) (table d) (seq d) (tx_failed d) rs (rowcount d)
       (faults d) (log d).

(** A statement that completed: its result set and its row count. *)
Definition set_cursor (rs : list Row) (n : Z) (d : Db) : Db :=
  mkDb (durable d) (table d) (seq d) (tx_failed d) rs n (faults d) (log d).

Definition set_faults (fs : list bool) (d : Db) : Db :=
  mkDb (durable d) (table d) (seq d) (tx_failed d) (results d) (rowcount d)
       fs (log d).

Definition log_stmt (s : Stmt) (d : Db) : Db :=
  mkDb (durable d) (table d) (seq d) (tx_failed d) (results d) (rowcount d)
       (faults d) (log d ++ [s]).

(** The outcome of a Python computation: a value, a raised exception, or
    [Stuck] when the fuel of the main loop ran out. *)
Inductive Result (A : Type) :=
| Ok (a : A)
| Raise (e : Exn)
| Stuck.

Arguments Ok {A} a.
Arguments Raise {A} e.
Arguments Stuck {A}.

(** ** Rows and constraints *)

Definition has_id (id : Z) (s : Student) : bool := student_id s =? id.

Definition has_email (e : string) (s : Student) : bool :=
  String.eqb (email s) e.

Fixpoint distinct_ids (t : list Student) : bool :=
  match t with
  | [] => true
  | s :: t' => negb (existsb (has_id (student_id s)) t') && distinct_ids t'
  end.

Fixpoint distinct_emails (t : list Student) : bool :=
  match t with
  | [] => true
  | s :: t' => negb (existsb (has_email (email s)) t') && distinct_emails t'
  end.

(** The primary key and the unique constraint of the schema. *)
Definition wf_table (t : list Student) : Prop :=
  distinct_ids t = true /\ distinct_emails t = true.

(** [ORDER BY student_id] (ascending). *)
Fixpoint insert_by_id (s : Student) (l : list Student) : list Student :=
  match l with
  | [] => [s]
  | x :: l' =>
      if student_id s <=? student_id x then s :: l
      else x :: insert_by_id s l'
  end.

Definition order_by_id (t : list Student) : list Student :=
  fold_right insert_by_id [] t.

Definition info_of (s : Student) : Row :=
  RowInfo (first_name s) (last_name s) (email s).

Definition update_email_where (e : string) (id : Z) (t : list Student)
  : list Student :=
  map (fun s => if has_id id s then with_email e s else s) t.

Definition delete_where (id : Z) (t : list Student) : list Student :=
  filter (fun s => negb (has_id id s)) t.

Definition count_where (id : Z) (t : list Student) : Z :=
  Z.of_nat (List.length (filter (has_id id) t)).

(** The texts bound to the parameters of a statement. *)
Definition bound_texts (q : Query) : list string :=
  match q with
  | InsertStudent first last mail date => [first; last; mail; date]
  | UpdateEmail new_email _ => [new_email]
  | _ => []
  end.

(** psycopg2 can bind the parameters: no text among them holds NUL. *)
Definition adaptable (q : Query) : bool :=
  negb (existsb has_nul (bound_texts q)).

(** The largest value of an [integer] column and of its sequence. *)
Definition max_integer : Z := 2147483647.

(** The next flag of the environment's schedule. *)
Definition next_fault (d : Db) : bool * Db :=
  (hd false (faults d), set_faults (tl (faults d)) d).

Section Application.

Set Default Proof Using "Type".

(** The server's input function for the [date] type, which turns the text
    bound to the fourth parameter of the insert into a date or rejects it.
    PostgreSQL accepts many notations; nothing below depends on which. *)
Variable date_in : string -> option Date.

(** ** Driver calls *)

(** The effect of a statement that the server accepts for execution.  A
    select yields the matching rows; an insert draws the next identifier
    from the sequence, unless the sequence is used up, and appends the row
    unless the identifier or the email is taken; an update or a delete acts
    on the rows with the given identifier and counts them, and an update is
    refused when it would leave two rows with one email.  A refused
    statement raises and puts the transaction in the failed state. *)
Definition run_query (q : Query) (d : Db) : Result unit * Db :=
  match q with
  | SelectAll =>
      let rows := order_by_id (table d) in
      (Ok tt, set_cursor (map RowStudent rows) (Z.of_nat (List.length rows)) d)
  | SelectById id =>
      let rows := filter (has_id id) (table d) in
      (Ok tt, set_cursor (map info_of rows) (Z.of_nat (List.length rows)) d)
  | InsertStudent first last mail date =>
      match date_in date with
      | None => (Raise (Error InvalidDatetimeFormat), set_tx_failed true d)
      | Some dt =>
          let id := seq d + 1 in
          let d' := set_seq id d in
          if max_integer <? id
          then (Raise (Error SequenceLimit), set_tx_failed true d)
          else
          if existsb (has_id id) (table d) || existsb (has_email mail) (table d)
          then (Raise (Error UniqueViolation), set_tx_failed true d')
          else (Ok tt,
                set_cursor [RowId id] 1
                  (set_table (table d ++ [mkStudent id first last mail dt]) d'))
      end
  | UpdateEmail new_email id =>
      let t' := update_email_where new_email id (table d) in
      if existsb (has_id id) (table d) && negb (distinct_emails t')
      then (Raise (Error UniqueViolation), set_tx_failed true d)
      else (Ok tt, set_cursor [] (count_where id (table d)) (set_table t' d))
  | DeleteById id =>
      (Ok tt,
       set_cursor [] (count_where id (table d))
         (set_table (delete_where id (table d)) d))
  end.

(** [cursor.execute(query, params)].  The driver first binds the
    parameters; for a text that holds NUL it raises [ValueError] and sends
    nothing.  Then the statement goes to the server. *)
Definition cursor_execute (q : Query) (d : Db) : Result unit * Db :=
  if adaptable q then
    let (fault, d1) := next_fault (log_stmt (Exec q) d) in
    if fault then (Raise (Error OperationalError), set_tx_failed true d1)
    else if tx_failed d1 then (Raise (Error InFailedSqlTransaction), d1)
    else run_query q d1
  else (Raise ValueError, d).

(** [cursor.fetchone()] *)
Definition cursor_fetchone (d : Db) : Result (option Row) * Db :=
  match results d with
  | [] => (Ok None, d)
  | r :: rs => (Ok (Some r), set_results rs d)
  end.

(** [cursor.fetchall()] *)
Definition cursor_fetchall (d : Db) : Result (list Row) * Db :=
  (Ok (results d), set_results [] d).

(** [cursor.rowcount] *)
Definition cursor_rowcount (d : Db) : Result Z * Db := (Ok (rowcount d), d).

(** [connection.commit()]; committing a failed transaction rolls it back. *)
Definition connection_commit (d : Db) : Result unit * Db :=
  let (fault, d1) := next_fault (log_stmt Commit d) in
  if fault then (Raise (Error OperationalError), set_tx_failed true d1)
  else if tx_failed d1
       then (Ok tt, set_tx_failed false (set_table (durable d1) d1))
       else (Ok tt, set_durable (table d1) d1).

(** [connection.rollback()]: drops the pending changes and ends the failed
    state; it does not raise. *)
Definition connection_rollback (d : Db) : Result unit * Db :=
  let d1 := log_stmt Rollback d in
  (Ok tt, set_tx_failed false (set_table (durable d1) d1)).

(** [cursor.close()] and [connection.close()] *)
Definition cursor_close (d : Db) : Result unit * Db :=
  (Ok tt, log_stmt CloseCursor d).

Definition connection_close (d : Db) : Result unit * Db :=
  (Ok tt, log_stmt CloseConnection d).

(* ================================================================== *)
(** * The world and the monad of Python computations *)
(* ================================================================== *)

(** [server_up] tells whether [psycopg2.connect] can reach the server with
    the credentials of [main]; [stdin] holds what is still to be read. *)
Record World := mkWorld {
  server_up : bool;
  db : Db;
  stdin : list Input;
  stdout : list Msg
}.

Definition set_db (d : Db) (w : World) : World :=
  mkWorld (server_up w) d (stdin w) (stdout w).

Definition set_stdin (ls : list Input) (w : World) : World :=
  mkWorld (server_up w) (db w) ls (stdout w).

Definition set_stdout (ms : list Msg) (w : World) : World :=
  mkWorld (server_up w) (db w) (stdin w) ms.

Definition M (A : Type) : Type := World -> Result A * World.

Definition ret {A} (a : A) : M A := fun w => (Ok a, w).

Definition bind {A B} (m : M A) (k : A -> M B) : M B :=
  fun w =>
    match m w with
    | (Ok a, w') => k a w'
    | (Raise e, w') => (Raise e, w')
    | (Stuck, w') => (Stuck, w')
    end.

Definition raise {A} (e : Exn) : M A := fun w => (Raise e, w).

Definition stuck {A} : M A := fun w => (Stuck, w).

(** [try: body except C as e: handler e], where [catches] decides
    membership in the class [C]. *)
Definition try_except {A} (body : M A) (catches : Exn -> bool)
  (handler : Exn -> M A) : M A :=
  fun w =>
    match body w with
    | (Raise e, w') => if catches e then handler e w' else (Raise e, w')
    | r => r
    end.

Declare Scope py_scope.
Delimit Scope py_scope with py.
Notation "x <- m ;; k" := (bind m (fun x => k))
  (at level 61, m at next level, right associativity) : py_scope.
Notation "m ;; k" := (bind m (fun _ => k))
  (at level 61, right associativity) : py_scope.
Local Open Scope py_scope.

(** A driver call on the connection of the [StudentDatabase] object. *)
Definition on_db {A} (f : Db -> Result A * Db) : M A :=
  fun w => let (r, d) := f (db w) in (r, set_db d w).

(** [print(...)] *)
Definition print (m : Msg) : M unit :=
  fun w => (Ok tt, set_stdout (stdout w ++ [m]) w).

(** [input(prompt)]: writes the prompt, then reads one line; [EOFError] at
    the end of the input, [UnicodeDecodeError] for bytes that do not
    decode. *)
Definition input (p : Prompt) : M string :=
  print (MsgPrompt p) ;;
  fun w =>
    match stdin w with
    | [] => (Raise EOFError, w)
    | Line l :: ls => (Ok l, set_stdin ls w)
    | Undecodable :: ls => (Raise UnicodeDecodeError, set_stdin ls w)
    end.

(** [for x in l: body x] *)
Fixpoint for_each {A} (l : list A) (body : A -> M unit) : M unit :=
  match l with
  | [] => ret tt
  | x :: l' => body x ;; for_each l' body
  end.

(** [psycopg2.connect(...)] followed by [connection.cursor()]: a new session
    sees the committed table.  Whether the server can be reached with the
    given parameters is decided by the world ([server_up]). *)
Definition open_session (d : Db) : Db :=
  mkDb (durable d) (durable d) (seq d) false [] (-1) (faults d) (log d).

Definition psycopg2_connect (host database user password : string)
  : M unit :=
  fun w =>
    if server_up w then (Ok tt, set_db (open_session (db w)) w)
    else (Raise (Error OperationalError), w).

(* ================================================================== *)
(** * class StudentDatabase *)
(* ================================================================== *)

(** [StudentDatabase.__init__], lines 40-53. *)
Definition StudentDatabase_init (host database user password : string)
  : M unit :=
  try_except
    (psycopg2_connect host database user password ;;
     print MsgConnected)
    is_Error
    (fun e => print (MsgConnectError e) ;; raise e).

(** Unpacking of a five-column row, line 83. *)
Definition print_student (student : Row) : M unit :=
  match student with
  | RowStudent s => print (MsgStudentRow s)
  | _ => raise ValueError
  end.

(** [StudentDatabase.getAllStudents], lines 65-95. *)
Definition getAllStudents : M (list Row) :=
  try_except
    (on_db (cursor_execute SelectAll) ;;
     students <- on_db cursor_fetchall ;;
     print MsgListHeader ;;
     match students with
     | _ :: _ =>
         for_each students print_student ;;
         print (MsgTotal (List.length students))
     | [] => print MsgNoStudents
     end ;;
     print MsgListFooter ;;
     ret students)
    is_Error
    (fun e => print (MsgRetrieveError e) ;; ret []).

(** [self.cursor.fetchone()[0]], line 123: the first column of the row that
    [RETURNING student_id] produced; subscripting [None] is a [TypeError].
    No other shape of row follows an insert. *)
Definition returned_id (row : option Row) : M Z :=
  match row with
  | Some (RowId id) => ret id
  | Some (RowStudent s) => ret (student_id s)
  | _ => raise TypeError
  end.

(** [StudentDatabase.addStudent], lines 110-136. *)
Definition addStudent (first_name last_name email enrollment_date : string)
  : M (option Z) :=
  try_except
    (on_db (cursor_execute
              (InsertStudent first_name last_name email enrollment_date)) ;;
     row <- on_db cursor_fetchone ;;
     student_id <- returned_id row ;;
     on_db connection_commit ;;
     print (MsgAdded first_name last_name student_id) ;;
     ret (Some student_id))
    is_Error
    (fun e =>
       on_db connection_rollback ;;
       print (MsgAddError e) ;;
       ret None).

(** Unpacking of a three-column row, lines 159 and 211. *)
Definition unpack_info (student : Row) : M (string * string * string) :=
  match student with
  | RowInfo f l e => ret (f, l, e)
  | _ => raise ValueError
  end.

(** The end of [updateStudentEmail], lines 174-183: what is reported for
    the row count [n] of the update. *)
Definition update_report (student_id : Z)
  (old_first_name old_last_name old_email new_email : string) (n : Z)
  : M bool :=
  if n >? 0 then
    print (MsgUpdated old_first_name old_last_name old_email new_email) ;;
    ret true
  else
    print (MsgNoChanges student_id) ;;
    ret false.

(** [StudentDatabase.updateStudentEmail], lines 149-189. *)
Definition updateStudentEmail (student_id : Z) (new_email : string) : M bool :=
  try_except
    (on_db (cursor_execute (SelectById student_id)) ;;
     student <- on_db cursor_fetchone ;;
     match student with
     | None =>
         print (MsgNotFound student_id) ;;
         ret false
     | Some row =>
         old <- unpack_info row ;;
         let '(old_first_name, old_last_name, old_email) := old in
         on_db (cursor_execute (UpdateEmail new_email student_id)) ;;
         on_db connection_commit ;;
         n <- on_db cursor_rowcount ;;
         update_report student_id old_first_name old_last_name old_email
           new_email n
     end)
    is_Error
    (fun e =>
       on_db connection_rollback ;;
       print (MsgUpdateError e) ;;
       ret false).

(** [StudentDatabase.deleteStudent], lines 201-235. *)
Definition deleteStudent (student_id : Z) : M bool :=
  try_except
    (on_db (cursor_execute (SelectById student_id)) ;;
     student <- on_db cursor_fetchone ;;
     match student with
     | None =>
         print (MsgNotFound student_id) ;;
         ret false
     | Some row =>
         info <- unpack_info row ;;
         let '(first_name, last_name, email) := info in
         on_db (cursor_execute (DeleteById student_id)) ;;
         on_db connection_commit ;;
         n <- on_db cursor_rowcount ;;
         if n >? 0 then
           print (MsgDeleted first_name last_name student_id email) ;;
           ret true
         else
           print (MsgNoneDeleted student_id) ;;
           ret false
     end)
    is_Error
    (fun e =>
       on_db connection_rollback ;;
       print (MsgDeleteError e) ;;
       ret false).

(** [StudentDatabase.close], lines 242-246. *)
Definition close : M unit :=
  on_db cursor_close ;;
  on_db connection_close ;;
  print MsgClosed.

(* ================================================================== *)
(** * The interactive shell *)
(* ================================================================== *)

(** Python's [str.strip()], [str.lower()], [int(_)] of a string and
    [datetime.strptime(_, '%Y-%m-%d')]; [None] stands for the [ValueError]
    that the last two raise.  Nothing is assumed of them. *)
Variable py_strip : string -> string.
Variable py_lower : string -> string.
Variable py_int : string -> option Z.
Variable py_strptime : string -> option Date.

(** Drops the variables of the section that a statement does not mention,
    so that [tauto] and [intuition] do not carry them into its proof. *)
Ltac stated_only :=
  try clear py_strptime; try clear py_int; try clear py_lower;
  try clear py_strip; try clear date_in.

(** [display_menu], lines 251-259. *)
Definition display_menu : M unit := print MsgMenu.

(** [datetime.strptime(s, '%Y-%m-%d')] as a statement, line 307. *)
Definition strptime_stmt (s : string) : M unit :=
  match py_strptime s with
  | Some _ => ret tt
  | None => raise ValueError
  end.

(** [int(s)], lines 317 and 327. *)
Definition int_expr (s : string) : M Z :=
  match py_int s with
  | Some z => ret z
  | None => raise ValueError
  end.

(** The branch of the menu for choice 2, lines 298-311. *)
Definition add_student_flow : M unit :=
  print MsgAddHeading ;;
  l1 <- input PFirstName ;;
  let first_name := py_strip l1 in
  l2 <- input PLastName ;;
  let last_name := py_strip l2 in
  l3 <- input PEmail ;;
  let email := py_strip l3 in
  l4 <- input PDate ;;
  let enrollment_date := py_strip l4 in
  try_except
    (strptime_stmt enrollment_date ;;
     addStudent first_name last_name email enrollment_date ;;
     ret tt)
    is_ValueError
    (fun _ => print MsgInvalidDate).

(** The branch for choice 3, lines 315-321. *)
Definition update_email_flow : M unit :=
  print MsgUpdateHeading ;;
  try_except
    (l1 <- input PStudentId ;;
     student_id <- int_expr (py_strip l1) ;;
     l2 <- input PNewEmail ;;
     let new_email := py_strip l2 in
     updateStudentEmail student_id new_email ;;
     ret tt)
    is_ValueError
    (fun _ => print MsgInvalidId).

(** The branch for choice 4, lines 325-336. *)
Definition delete_student_flow : M unit :=
  print MsgDeleteHeading ;;
  try_except
    (l1 <- input PDeleteId ;;
     student_id <- int_expr (py_strip l1) ;;
     l2 <- input (PConfirm student_id) ;;
     let confirm := py_lower (py_strip l2) in
     if String.eqb confirm "yes" then
       deleteStudent student_id ;;
       ret tt
     else
       print MsgCancelled)
    is_ValueError
    (fun _ => print MsgInvalidId).

(** The [if]/[elif] chain of the loop body, lines 292-344; the result is
    [true] when the branch ends in [break]. *)
Definition menu_choice (choice : string) : M bool :=
  if String.eqb choice "1" then getAllStudents ;; ret false
  else if String.eqb choice "2" then add_student_flow ;; ret false
  else if String.eqb choice "3" then update_email_flow ;; ret false
  else if String.eqb choice "4" then delete_student_flow ;; ret false
  else if String.eqb choice "5" then print MsgExiting ;; ret true
  else print MsgInvalidChoice ;; ret false.

(** The [while True] loop, lines 288-346.  Every turn reads at least one
    line, so [fuel] greater than the number of lines left is never used
    up. *)
Fixpoint main_loop (fuel : nat) : M unit :=
  match fuel with
  | O => stuck
  | S fuel' =>
      display_menu ;;
      l <- input PChoice ;;
      let choice := py_strip l in
      stop <- menu_choice choice ;;
      if (stop : bool) then ret tt
      else
        input PContinue ;;
        main_loop fuel'
  end.

(** [main], lines 267-355. *)
Definition main : M unit :=
  print MsgBanner ;;
  let DB_HOST := "localhost" in
  let DB_NAME := "students_db" in
  let DB_USER := "postgres" in
  let DB_PASSWORD := "" in
  try_except
    (StudentDatabase_init DB_HOST DB_NAME DB_USER DB_PASSWORD ;;
     (fun w => main_loop (S (List.length (stdin w))) w) ;;
     close)
    is_Exception
    (fun e => print (MsgErrorOccurred e)) ;;
  print MsgThanks.

(** The exit status of the interpreter running the script (lines 358-359):
    0 when [main] returns, 1 when an exception escapes it. *)
Definition exit_status (r : Result unit) : option Z :=
  match r with
  | Ok _ => Some 0
  | Raise _ => Some 1
  | Stuck => None
  end.

(* ================================================================== *)
(** * Predicates used in the statements *)
(* ================================================================== *)

(** The server executes the next statement: the environment schedules no
    failure for it and the transaction is not in the failed state. *)
Definition accepts (d : Db) : bool :=
  negb (hd false (faults d)) && negb (tx_failed d).

(** The environment schedules no failure for the next [n] driver calls. *)
Definition calm (n : nat) (d : Db) : Prop :=
  forall k, (k < n)%nat -> nth k (faults d) false = false.

(** The server executes an insert of the email [e] with the date text [d]
    and the commit after it: the environment fails neither call, the text
    is a date, the sequence is not used up, and neither the identifier drawn
    from it nor the email is taken. *)
Definition insert_commits (e d : string) (d0 : Db) : bool :=
  accepts d0 && negb (hd false (tl (faults d0))) &&
  match date_in d with Some _ => true | None => false end &&
  (seq d0 + 1 <=? max_integer) &&
  negb (existsb (has_id (seq d0 + 1)) (table d0)) &&
  negb (existsb (has_email e) (table d0)).

(** The server executes an update of the email to [e] for the identifier
    [id], after the existence check, and the commit after it: the email can
    be bound, the environment fails none of the three calls, and the update
    leaves no two rows with one email. *)
Definition update_commits (e : string) (id : Z) (d0 : Db) : bool :=
  negb (has_nul e) &&
  accepts d0 && negb (hd false (tl (faults d0))) &&
  negb (hd false (tl (tl (faults d0)))) &&
  distinct_emails (update_email_where e id (table d0)).

(** No uncommitted change is pending. *)
Definition clean (d : Db) : Prop := table d = durable d.

(** The state of a connection between two calls of the data-access layer:
    nothing is pending and the table satisfies its constraints. *)
Definition consistent (d : Db) : Prop :=
  clean d /\ wf_table (table d) /\ tx_failed d = false.

(** Ascending order of identifiers. *)
Definition id_le (a b : Student) : Prop := student_id a <= student_id b.

(** A computation that never runs out of fuel and never puts lines back on
    the standard input. *)
Definition tame {A} (m : M A) : Prop :=
  forall w,
    fst (m w) <> Stuck /\
    (List.length (stdin (snd (m w))) <= List.length (stdin w))%nat.

(** A driver call that returns or raises. *)
Definition returns {A} (f : Db -> Result A * Db) : Prop :=
  forall d, fst (f d) <> Stuck.

(** The world after the shell has printed [msgs] and read all the lines up
    to [rest]. *)
Definition prompted (msgs : list Msg) (rest : list Input) (w : World)
  : World :=
  set_stdin rest (set_stdout (stdout w ++ msgs) w).

(** ** Predicates used in the further properties *)

(** The statements that end a session. *)
Definition is_close (s : Stmt) : bool :=
  match s with
  | CloseCursor | CloseConnection => true
  | _ => false
  end.

(** A computation whose exceptions, if any, satisfy [P] together with the
    world they are raised in. *)
Definition within (P : Exn -> World -> Prop) {A} (m : M A) : Prop :=
  forall w, match fst (m w) with Raise e => P e (snd (m w)) | _ => True end.

Definition nothing (e : Exn) (w : World) : Prop := False.

(** [EOFError], raised with the standard input used up. *)
Definition eof_only (e : Exn) (w : World) : Prop :=
  e = EOFError /\ stdin w = [].

(** The exceptions of [input]: [EOFError] at the end of the standard input,
    and [UnicodeDecodeError]. *)
Definition input_failure (e : Exn) (w : World) : Prop :=
  eof_only e w \/ e = UnicodeDecodeError.

Definition input_or_value (e : Exn) (w : World) : Prop :=
  input_failure e w \/ e = ValueError.

(** [ValueError] and nothing else. *)
Definition value_only (e : Exn) (w : World) : Prop := e = ValueError.

(** A computation that sends no statement ending the session. *)
Definition no_close {A} (m : M A) : Prop :=
  forall w,
    filter is_close (log (db (snd (m w)))) = filter is_close (log (db w)).

(** A driver call that sends no statement ending the session. *)
Definition keeps_open {A} (f : Db -> Result A * Db) : Prop :=
  forall d, filter is_close (log (snd (f d))) = filter is_close (log d).

(** No identifier of the table is ahead of the sequence. *)
Definition sequenced (d : Db) : Prop :=
  Forall (fun s => student_id s <= seq d) (table d).

(** The columns of a row that no statement of the program updates. *)
Definition fixed_columns (s : Student) : Z * string * string * Date :=
  (student_id s, first_name s, last_name s, enrollment_date s).

(** The format that the specification names for the enrollment date, ISO
    8601 [YYYY-MM-DD]: four digits, a dash, two digits, a dash, two digits.
    It is compared with what [strptime] accepts. *)
Definition iso_yyyy_mm_dd (s : string) : bool :=
  match list_ascii_of_string s with
  | [y1; y2; y3; y4; h1; m1; m2; h2; d1; d2] =>
      forallb PyStr.is_digit [y1; y2; y3; y4; m1; m2; d1; d2] &&
      Ascii.eqb h1 "-" && Ascii.eqb h2 "-"
  | _ => false
  end.

(** ** Sample data *)

Definition ada : Student :=
  mkStudent 1 "Ada" "Lovelace" "ada@x.com" (mkDate 1990 1 1).

Definition bob : Student :=
  mkStudent 2 "Bob" "Stone" "bob@x.com" (mkDate 1991 2 3).

(** A connection just opened on a server that holds the rows [t] and whose
    sequence last gave [n]; the environment schedules no failure. *)
Definition db_of (t : list Student) (n : Z) : Db :=
  mkDb t t n false [] (-1) [] [].

(** The same with the first coming driver call failing. *)
Definition db_failing (t : list Student) (n : Z) : Db :=
  mkDb t t n false [] (-1) [true] [].

Definition world_of (t : list Student) (n : Z) (lines : list string) : World :=
  mkWorld true (db_of t n) (map Line lines) [].

Definition world_down (lines : list string) : World :=
  mkWorld false (db_of [] 0) (map Line lines) [].

(** A text with the NUL character in it. *)
Definition nul_text : string := String Ascii.zero "@x.com".

(* ================================================================== *)
(** * Evaluation of the model on small inputs *)
(* ================================================================== *)

Example strip_ex : PyStr.strip "  yes " = "yes".
Proof. reflexivity. Qed.

Example lower_ex : PyStr.lower "YeS" = "yes".
Proof. reflexivity. Qed.

Example int_ex1 : PyStr.int " 42 " = Some 42.
Proof. reflexivity. Qed.

Example int_ex2 : PyStr.int "-1_000" = Some (-1000).
Proof. reflexivity. Qed.

Example int_ex3 : PyStr.int "4x" = None.
Proof. reflexivity. Qed.

Example int_ex4 : PyStr.int "" = None.
Proof. reflexivity. Qed.

Example int_ex5 :
  PyStr.int (string_of_list_ascii (repeat "7"%char 4300)) <> None /\
  PyStr.int (string_of_list_ascii (repeat "7"%char 4301)) = None.
Proof. split; [vm_compute; discriminate | vm_compute; reflexivity]. Qed.

Example strip_ex2 :
  PyStr.strip (String (ascii_of_nat 28) "yes" ++ String (ascii_of_nat 11) "")
  = "yes".
Proof. reflexivity. Qed.

Example has_nul_ex : has_nul nul_text = true /\ has_nul "ada@x.com" = false.
Proof. split; reflexivity. Qed.

Example iso_ex :
  iso_yyyy_mm_dd "2023-09-01" = true /\ iso_yyyy_mm_dd "2023-1-5" = false.
Proof. split; reflexivity. Qed.

Example strptime_ex1 : PyDate.strptime "2023-09-01" = Some (mkDate 2023 9 1).
Proof. reflexivity. Qed.

Example strptime_ex2 : PyDate.strptime "2023-1-5" = Some (mkDate 2023 1 5).
Proof. reflexivity. Qed.

Example strptime_ex3 : PyDate.strptime "2023-02-30" = None.
Proof. reflexivity. Qed.

Example strptime_ex4 : PyDate.strptime "01/09/2023" = None.
Proof. reflexivity. Qed.

Example strptime_ex5 : PyDate.strptime "2024-02-29" = Some (mkDate 2024 2 29).
Proof. reflexivity. Qed.

Example strptime_ex6 : PyDate.strptime "2023-09-011" = None.
Proof. reflexivity. Qed.

(* ================================================================== *)
(** * Facts about tables *)
(* ================================================================== *)

Lemma insert_by_id_perm (s : Student) (l : list Student) :
  Permutation (insert_by_id s l) (s :: l).
Proof.
  induction l as [|x l IH]; simpl.
  - apply Permutation_refl.
  - destruct (student_id s <=? student_id x).
    + apply Permutation_refl.
    + eapply perm_trans; [apply perm_skip, IH | apply perm_swap].
Qed.

Lemma order_by_id_perm (t : list Student) : Permutation (order_by_id t) t.
Proof.
  induction t as [|s t IH]; simpl.
  - constructor.
  - eapply perm_trans; [apply insert_by_id_perm | apply perm_skip, IH].
Qed.

Lemma insert_by_id_sorted (s : Student) (l : list Student) :
  StronglySorted id_le l -> StronglySorted id_le (insert_by_id s l).
Proof.
  induction 1 as [|x l Hl IH Hx]; simpl.
  - repeat constructor.
  - destruct (student_id s <=? student_id x) eqn:E.
    + apply Z.leb_le in E. constructor.
      * constructor; assumption.
      * constructor; [exact E|].
        eapply Forall_impl; [|exact Hx].
        intros y Hy. unfold id_le in *. lia.
    + apply Z.leb_gt in E. constructor; [exact IH|].
      eapply Permutation_Forall.
      * apply Permutation_sym, insert_by_id_perm.
      * constructor; [unfold id_le; lia | exact Hx].
Qed.

Lemma order_by_id_sorted (t : list Student) :
  StronglySorted id_le (order_by_id t).
Proof.
  induction t as [|s t IH]; simpl.
  - constructor.
  - apply insert_by_id_sorted, IH.
Qed.

Lemma filter_perm (p : Student -> bool) (l l' : list Student) :
  Permutation l l' -> Permutation (filter p l) (filter p l').
Proof.
  induction 1 as [| x l l' _ IH | x y l | l l' l'' _ IH1 _ IH2]; simpl.
  - constructor.
  - destruct (p x); [apply perm_skip|]; exact IH.
  - destruct (p x), (p y); try apply Permutation_refl. apply perm_swap.
  - eapply perm_trans; eassumption.
Qed.

Lemma existsb_has_id (id : Z) (t : list Student) :
  existsb (has_id id) t = true <-> In id (map student_id t).
Proof.
  stated_only.
  rewrite existsb_exists, in_map_iff. unfold has_id.
  split; intros [s [H1 H2]]; exists s.
  - apply Z.eqb_eq in H2. tauto.
  - split; [tauto|]. apply Z.eqb_eq. tauto.
Qed.

Lemma existsb_has_email (e : string) (t : list Student) :
  existsb (has_email e) t = true <-> In e (map email t).
Proof.
  stated_only.
  rewrite existsb_exists, in_map_iff. unfold has_email.
  split; intros [s [H1 H2]]; exists s.
  - apply String.eqb_eq in H2. tauto.
  - split; [tauto|]. apply String.eqb_eq. tauto.
Qed.

Lemma filter_has_id_nil (id : Z) (t : list Student) :
  existsb (has_id id) t = false -> filter (has_id id) t = [].
Proof.
  induction t as [|s t IH]; simpl; [reflexivity|].
  destruct (has_id id s); simpl; [discriminate | exact IH].
Qed.

Lemma filter_has_id_cons (id : Z) (t : list Student) :
  existsb (has_id id) t = true ->
  exists s rest, filter (has_id id) t = s :: rest /\ student_id s = id.
Proof.
  induction t as [|s t IH]; simpl; [discriminate|].
  destruct (has_id id s) eqn:E; simpl.
  - intros _. exists s, (filter (has_id id) t). split; [reflexivity|].
    apply Z.eqb_eq. exact E.
  - exact IH.
Qed.

Lemma distinct_ids_NoDup (t : list Student) :
  distinct_ids t = true <-> NoDup (map student_id t).
Proof.
  induction t as [|s t IH]; simpl.
  - split; [constructor | reflexivity].
  - rewrite andb_true_iff, negb_true_iff, NoDup_cons_iff, <- IH.
    rewrite <- existsb_has_id, <- not_true_iff_false. reflexivity.
Qed.

Lemma distinct_emails_NoDup (t : list Student) :
  distinct_emails t = true <-> NoDup (map email t).
Proof.
  induction t as [|s t IH]; simpl.
  - split; [constructor | reflexivity].
  - rewrite andb_true_iff, negb_true_iff, NoDup_cons_iff, <- IH.
    rewrite <- existsb_has_email, <- not_true_iff_false. reflexivity.
Qed.

(* ================================================================== *)
(** * Facts about the driver *)
(* ================================================================== *)

Lemma cursor_execute_accepts (q : Query) (d : Db) :
  adaptable q = true ->
  accepts d = true ->
  cursor_execute q d
  = run_query q (set_faults (tl (faults d)) (log_stmt (Exec q) d)).
Proof.
  unfold accepts, cursor_execute, next_fault. intros ->. simpl.
  destruct (hd false (faults d)); simpl; [discriminate|].
  destruct (tx_failed d); simpl; [discriminate | reflexivity].
Qed.

Lemma cursor_execute_refuses (q : Query) (d : Db) :
  adaptable q = true ->
  accepts d = false ->
  exists e d',
    cursor_execute q d = (Raise (Error e), d') /\
    durable d' = durable d /\ table d' = table d /\ seq d' = seq d /\
    faults d' = tl (faults d) /\ log d' = log d ++ [Exec q].
Proof.
  stated_only.
  unfold accepts, cursor_execute, next_fault. intros ->. simpl.
  destruct (hd false (faults d)); simpl.
  - intros _. eexists _, _. split; [reflexivity|]. simpl. tauto.
  - destruct (tx_failed d); simpl; [|discriminate].
    intros _. eexists _, _. split; [reflexivity|]. simpl. tauto.
Qed.

Lemma cursor_execute_unadaptable (q : Query) (d : Db) :
  adaptable q = false -> cursor_execute q d = (Raise ValueError, d).
Proof. unfold cursor_execute. intros ->. reflexivity. Qed.

Lemma adaptable_insert (f l e d : string) :
  adaptable (InsertStudent f l e d) = true <->
  has_nul f = false /\ has_nul l = false /\ has_nul e = false /\
  has_nul d = false.
Proof.
  stated_only.
  unfold adaptable. simpl. rewrite negb_true_iff, !orb_false_iff. tauto.
Qed.

Lemma adaptable_update (e : string) (id : Z) :
  adaptable (UpdateEmail e id) = negb (has_nul e).
Proof. unfold adaptable. simpl. rewrite orb_false_r. reflexivity. Qed.

Lemma connection_commit_accepts (d : Db) :
  accepts d = true ->
  connection_commit d
  = (Ok tt, set_durable (table d) (set_faults (tl (faults d)) (log_stmt Commit d))).
Proof.
  unfold accepts, connection_commit, next_fault. simpl.
  destruct (hd false (faults d)); simpl; [discriminate|].
  destruct (tx_failed d); simpl; [discriminate | reflexivity].
Qed.

Lemma accepts_true (d : Db) :
  accepts d = true -> hd false (faults d) = false /\ tx_failed d = false.
Proof.
  stated_only.
  unfold accepts. rewrite andb_true_iff, !negb_true_iff. tauto.
Qed.

Lemma returns_cursor_execute (q : Query) : returns (cursor_execute q).
Proof.
  intros d. destruct (adaptable q) eqn:Ha.
  - destruct (accepts d) eqn:E.
    + rewrite (cursor_execute_accepts q d Ha E).
      destruct q; simpl; try discriminate.
      * destruct (date_in date); simpl; [|discriminate].
        repeat match goal with
               | |- context [if ?c then _ else _] => destruct c
               end; discriminate.
      * match goal with |- context [if ?c then _ else _] => destruct c end;
          discriminate.
    + destruct (cursor_execute_refuses q d Ha E) as (e & d' & H & _).
      rewrite H. discriminate.
  - rewrite (cursor_execute_unadaptable q d Ha). discriminate.
Qed.

Lemma returns_cursor_fetchone : returns cursor_fetchone.
Proof. intros d. unfold cursor_fetchone. destruct (results d); discriminate. Qed.

Lemma returns_cursor_fetchall : returns cursor_fetchall.
Proof. intros d. discriminate. Qed.

Lemma returns_cursor_rowcount : returns cursor_rowcount.
Proof. intros d. discriminate. Qed.

Lemma returns_connection_commit : returns connection_commit.
Proof.
  intros d. unfold connection_commit, next_fault. simpl.
  destruct (hd false (faults d)); simpl; [discriminate|].
  destruct (tx_failed d); discriminate.
Qed.

Lemma returns_connection_rollback : returns connection_rollback.
Proof. intros d. discriminate. Qed.

Lemma returns_cursor_close : returns cursor_close.
Proof. intros d. discriminate. Qed.

Lemma returns_connection_close : returns connection_close.
Proof. intros d. discriminate. Qed.

(* ================================================================== *)
(** * Termination of the shell *)
(* ================================================================== *)

Lemma tame_ret {A} (a : A) : tame (ret a).
Proof. intros w. simpl. split; [discriminate | lia]. Qed.

Lemma tame_raise {A} (e : Exn) : tame (@raise A e).
Proof. intros w. simpl. split; [discriminate | lia]. Qed.

Lemma tame_print (m : Msg) : tame (print m).
Proof. intros w. simpl. split; [discriminate | lia]. Qed.

Lemma tame_on_db {A} (f : Db -> Result A * Db) : returns f -> tame (on_db f).
Proof.
  intros Hf w. unfold on_db. specialize (Hf (db w)).
  destruct (f (db w)) as [r d]. simpl in *. split; [exact Hf | lia].
Qed.

Lemma tame_bind {A B} (m : M A) (k : A -> M B) :
  tame m -> (forall a, tame (k a)) -> tame (bind m k).
Proof.
  intros Hm Hk w. unfold bind. destruct (Hm w) as [H1 H2].
  destruct (m w) as [[a|e|] w1]; simpl in *.
  - destruct (Hk a w1) as [H3 H4]. split; [exact H3 | lia].
  - split; [discriminate | exact H2].
  - contradiction.
Qed.

Lemma tame_try_except {A} (body : M A) (c : Exn -> bool) (h : Exn -> M A) :
  tame body -> (forall e, tame (h e)) -> tame (try_except body c h).
Proof.
  intros Hb Hh w. unfold try_except. destruct (Hb w) as [H1 H2].
  destruct (body w) as [[a|e|] w1]; simpl in *.
  - split; [discriminate | exact H2].
  - destruct (c e); simpl.
    + destruct (Hh e w1) as [H3 H4]. split; [exact H3 | lia].
    + split; [discriminate | exact H2].
  - contradiction.
Qed.

Lemma tame_input (p : Prompt) : tame (input p).
Proof.
  intros w. unfold input, bind, print. simpl.
  destruct (stdin w) as [|[l|] ls] eqn:E; simpl; rewrite ?E; simpl; split;
    try discriminate; lia.
Qed.

Lemma input_consumes (p : Prompt) (w w' : World) (l : string) :
  input p w = (Ok l, w') ->
  (List.length (stdin w') < List.length (stdin w))%nat.
Proof.
  unfold input, bind, print. simpl.
  destruct (stdin w) as [|[x|] ls] eqn:E; simpl; intros H; inversion H;
    subst; simpl. lia.
Qed.

Lemma tame_for_each {A} (l : list A) (body : A -> M unit) :
  (forall a, tame (body a)) -> tame (for_each l body).
Proof.
  intros Hb. induction l as [|x l IH]; simpl.
  - apply tame_ret.
  - apply tame_bind; [apply Hb | intros _; exact IH].
Qed.

Lemma tame_psycopg2_connect (h n u p : string) :
  tame (psycopg2_connect h n u p).
Proof.
  intros w. unfold psycopg2_connect.
  destruct (server_up w); simpl; split; try discriminate; lia.
Qed.

Create HintDb tame_db.

#[local] Hint Resolve returns_cursor_execute returns_cursor_fetchone
  returns_cursor_fetchall returns_cursor_rowcount returns_connection_commit
  returns_connection_rollback returns_cursor_close returns_connection_close
  : tame_db.

#[local] Hint Resolve tame_ret tame_raise tame_print tame_on_db tame_input
  tame_psycopg2_connect : tame_db.

(** Structural descent through a computation for [tame] goals. *)
Ltac tame_step :=
  match goal with
  | |- tame (bind _ _) => apply tame_bind; [|intro]
  | |- tame (try_except _ _ _) => apply tame_try_except; [|intro]
  | |- tame (for_each _ _) => apply tame_for_each; intro
  | |- tame (if ?c then _ else _) => destruct c
  | |- tame (match ?x with _ => _ end) => destruct x
  | |- tame _ => solve [auto with tame_db]
  end.

Ltac tame_tac := repeat tame_step.

Lemma tame_init (h n u p : string) : tame (StudentDatabase_init h n u p).
Proof. unfold StudentDatabase_init. tame_tac. Qed.

Lemma tame_getAllStudents : tame getAllStudents.
Proof. unfold getAllStudents, print_student. tame_tac. Qed.

Lemma tame_addStudent (f l e d : string) : tame (addStudent f l e d).
Proof. unfold addStudent, returned_id. tame_tac. Qed.

Lemma tame_updateStudentEmail (id : Z) (e : string) :
  tame (updateStudentEmail id e).
Proof. unfold updateStudentEmail, update_report, unpack_info. tame_tac. Qed.

Lemma tame_deleteStudent (id : Z) : tame (deleteStudent id).
Proof. unfold deleteStudent, unpack_info. tame_tac. Qed.

Lemma tame_close : tame close.
Proof. unfold close. tame_tac. Qed.

#[local] Hint Resolve tame_init tame_getAllStudents tame_addStudent
  tame_updateStudentEmail tame_deleteStudent tame_close : tame_db.

Lemma tame_menu_choice (choice : string) : tame (menu_choice choice).
Proof.
  unfold menu_choice, add_student_flow, update_email_flow,
    delete_student_flow, strptime_stmt, int_expr.
  tame_tac.
Qed.

(** With more fuel than lines on the standard input the loop ends by
    [break] or by an exception, never for lack of fuel. *)
Lemma main_loop_total (fuel : nat) :
  forall w, (List.length (stdin w) < fuel)%nat ->
            fst (main_loop fuel w) <> Stuck.
Proof.
  induction fuel as [|fuel IH]; intros w Hlen; [lia|].
  simpl. unfold bind at 1, display_menu at 1, print at 1.
  unfold bind at 1.
  pose proof (tame_input PChoice (set_stdout (stdout w ++ [MsgMenu]) w))
    as [Hi _].
  destruct (input PChoice (set_stdout (stdout w ++ [MsgMenu]) w))
    as [[l| |] w1] eqn:E1; simpl in *; try discriminate; try contradiction.
  apply input_consumes in E1. simpl in E1.
  unfold bind at 1.
  destruct (tame_menu_choice (py_strip l) w1) as [Hm1 Hm2].
  destruct (menu_choice (py_strip l) w1) as [[stop| |] w2];
    simpl in *; try discriminate; try contradiction.
  destruct stop; simpl; [discriminate|].
  unfold bind at 1.
  destruct (tame_input PContinue w2) as [Hc1 Hc2].
  destruct (input PContinue w2) as [[l2| |] w3]; simpl in *;
    try discriminate; try contradiction.
  apply IH. lia.
Qed.

Lemma main_returns (w : World) : exists w', main w = (Ok tt, w').
Proof.
  unfold main. unfold bind at 1, print at 1. cbv zeta.
  set (w0 := set_stdout (stdout w ++ [MsgBanner]) w).
  unfold bind at 1, try_except at 1.
  unfold bind at 1.
  destruct (tame_init "localhost" "students_db" "postgres" "" w0) as [Hi _].
  destruct (StudentDatabase_init "localhost" "students_db" "postgres" "" w0)
    as [[[]|e|] w1]; cbn [fst] in Hi;
    try contradiction.
  - unfold bind at 1.
    pose proof (main_loop_total (S (List.length (stdin w1))) w1
                  (Nat.lt_succ_diag_r _)) as Hl.
    destruct (main_loop (S (List.length (stdin w1))) w1) as [[[]|e|] w2];
      cbn [fst] in Hl; try contradiction.
    + eexists. reflexivity.
    + eexists. reflexivity.
  - eexists. reflexivity.
Qed.

(* ================================================================== *)
(** * Properties of the data-access layer and of the shell *)
(* ================================================================== *)

(** C2: the interpreter's exit status is 0 whenever [main] is run, in
    particular on a normal exit through menu choice 5; when the initial
    connection fails the program reports it with an error message (the
    alternative the claim allows in place of a non-zero status), contacts
    the store no further, and still ends with status 0. *)
Theorem main_exit_status (w : World) :
  exit_status (fst (main w)) = Some 0 /\
  (server_up w = false ->
   (exit_status (fst (main w)) <> Some 0 \/
    In (MsgErrorOccurred (Error OperationalError)) (stdout (snd (main w)))) /\
   stdout (snd (main w))
   = stdout w ++ [MsgBanner; MsgConnectError (Error OperationalError);
                  MsgErrorOccurred (Error OperationalError); MsgThanks] /\
   db (snd (main w)) = db w).
Proof.
  stated_only.
  split.
  - destruct (main_returns w) as [w' H]. rewrite H. reflexivity.
  - intros Hdown.
    assert (H : snd (main w)
                = set_stdout
                    (stdout w ++ [MsgBanner;
                                  MsgConnectError (Error OperationalError);
                                  MsgErrorOccurred (Error OperationalError);
                                  MsgThanks]) w).
    { unfold main, StudentDatabase_init, psycopg2_connect, bind, try_except,
        print, raise. simpl. rewrite Hdown. simpl.
      unfold set_stdout. simpl. rewrite <- !app_assoc. reflexivity. }
    rewrite H. simpl. repeat split.
    right. apply in_or_app. right. simpl. tauto.
Qed.

(** C3: for an identifier absent from the table, [updateStudentEmail]
    returns [False]; the table and its committed content are as before, and
    the only statements sent are the existence check and, if the check
    itself fails, the rollback: no update and no commit.  When the check is
    executed, "no student found" is what gets printed. *)
Theorem updateStudentEmail_absent (w : World) (id : Z) (e : string) :
  ~ In id (map student_id (table (db w))) ->
  clean (db w) ->
  let r := fst (updateStudentEmail id e w) in
  let w' := snd (updateStudentEmail id e w) in
  r = Ok false /\
  table (db w') = table (db w) /\
  durable (db w') = durable (db w) /\
  (log (db w') = log (db w) ++ [Exec (SelectById id)] \/
   log (db w') = log (db w) ++ [Exec (SelectById id); Rollback]) /\
  (forall e' id', ~ In (Exec (UpdateEmail e' id')) (log (db w)) ->
                  ~ In (Exec (UpdateEmail e' id')) (log (db w'))) /\
  (accepts (db w) = true -> stdout w' = stdout w ++ [MsgNotFound id]).
Proof.
  stated_only.
  intros Habs Hclean.
  rewrite <- existsb_has_id in Habs. apply not_true_is_false in Habs.
  cbv zeta. unfold updateStudentEmail, try_except, bind, on_db.
  destruct (accepts (db w)) eqn:E.
  - rewrite !(cursor_execute_accepts (SelectById id) _ eq_refl E). simpl.
    rewrite !(filter_has_id_nil _ _ Habs). simpl.
    repeat split; auto.
    intros e' id' Hn Hin. apply in_app_or in Hin. simpl in Hin.
    destruct Hin as [Hin|[Hin|[]]]; [tauto | discriminate].
  - destruct (cursor_execute_refuses (SelectById id) _ eq_refl E)
      as (err & d' & H & Hd & Ht & Hs & Hf & Hl).
    rewrite !H. simpl. rewrite Hd, Hl. unfold clean in Hclean.
    repeat split; auto.
    + right. rewrite <- app_assoc. reflexivity.
    + intros e' id' Hn Hin. rewrite !in_app_iff in Hin. simpl in Hin.
      destruct Hin as [[Hin|[Hin|[]]]|[Hin|[]]];
        [tauto | discriminate | discriminate].
    + discriminate.
Qed.

Lemma for_each_print_student (l : list Student) :
  forall w,
    for_each (map RowStudent l) print_student w
    = (Ok tt, set_stdout (stdout w ++ map MsgStudentRow l) w).
Proof.
  induction l as [|s l IH]; intros w; simpl.
  - unfold ret, set_stdout. rewrite app_nil_r. destruct w; reflexivity.
  - unfold bind, print. simpl. rewrite IH. unfold set_stdout. simpl.
    rewrite <- app_assoc. reflexivity.
Qed.

(** C6: [getAllStudents] always returns a list and never raises; the table,
    its committed content and the sequence are as before.  When the server
    executes the query the list holds exactly the rows of the table, in
    ascending order of identifier (the empty list for an empty table); when
    the query fails the error is reported and the empty list returned. *)
Theorem getAllStudents_spec (w : World) :
  let r := fst (getAllStudents w) in
  let w' := snd (getAllStudents w) in
  (exists rows, r = Ok rows) /\
  table (db w') = table (db w) /\
  durable (db w') = durable (db w) /\
  seq (db w') = seq (db w) /\
  (accepts (db w) = true ->
   exists l, r = Ok (map RowStudent l) /\
             Permutation l (table (db w)) /\
             StronglySorted id_le l) /\
  (accepts (db w) = false ->
   r = Ok [] /\
   exists err, stdout w' = stdout w ++ [MsgRetrieveError (Error err)]).
Proof.
  cbv zeta. unfold getAllStudents, try_except, bind, on_db.
  destruct (accepts (db w)) eqn:E.
  - rewrite !(cursor_execute_accepts SelectAll _ eq_refl E). simpl.
    pose proof (order_by_id_perm (table (db w))) as Hp.
    pose proof (order_by_id_sorted (table (db w))) as Hs.
    destruct (order_by_id (table (db w))) as [|s l] eqn:Eo; simpl.
    + repeat split; eauto; try discriminate.
      intros _. exists []. auto.
    + unfold bind, print. simpl. rewrite !for_each_print_student. simpl.
      repeat split; eauto; try discriminate.
      intros _. exists (s :: l). auto.
  - destruct (cursor_execute_refuses SelectAll _ eq_refl E)
      as (err & d' & H & Hd & Ht & Hs & Hf & Hl).
    rewrite !H. simpl.
    repeat split; eauto; try discriminate.
Qed.

Lemma insert_commits_true (e d : string) (d0 : Db) :
  insert_commits e d d0 = true <->
  accepts d0 = true /\
  hd false (tl (faults d0)) = false /\
  date_in d <> None /\
  seq d0 + 1 <= max_integer /\
  ~ In (seq d0 + 1) (map student_id (table d0)) /\
  ~ In e (map email (table d0)).
Proof.
  stated_only.
  unfold insert_commits.
  rewrite !andb_true_iff, !negb_true_iff, Z.leb_le.
  rewrite <- existsb_has_id, <- existsb_has_email, !not_true_iff_false.
  destruct (date_in d); intuition congruence.
Qed.

(** The two ways [addStudent] ends when its texts can be bound. *)
Lemma addStudent_cases (w : World) (f l e d : string) :
  adaptable (InsertStudent f l e d) = true ->
  let r := fst (addStudent f l e d w) in
  let w' := snd (addStudent f l e d w) in
  let id := seq (db w) + 1 in
  (insert_commits e d (db w) = true /\
   exists dt,
     date_in d = Some dt /\
     r = Ok (Some id) /\
     durable (db w') = table (db w) ++ [mkStudent id f l e dt] /\
     table (db w') = durable (db w') /\
     log (db w') = log (db w) ++ [Exec (InsertStudent f l e d); Commit] /\
     stdout w' = stdout w ++ [MsgAdded f l id] /\
     tx_failed (db w') = false /\
     seq (db w') = id /\
     faults (db w') = tl (tl (faults (db w))))
  \/
  (insert_commits e d (db w) = false /\
   r = Ok None /\
   durable (db w') = durable (db w) /\
   table (db w') = durable (db w) /\
   (log (db w') = log (db w) ++ [Exec (InsertStudent f l e d); Rollback] \/
    log (db w')
    = log (db w) ++ [Exec (InsertStudent f l e d); Commit; Rollback]) /\
   (exists err, stdout w' = stdout w ++ [MsgAddError (Error err)]) /\
   tx_failed (db w') = false /\
   (seq (db w') = seq (db w) \/ seq (db w') = id)).
Proof.
  intros Ha. cbv zeta.
  unfold insert_commits, addStudent, try_except, bind, on_db.
  destruct (accepts (db w)) eqn:E.
  - rewrite !(cursor_execute_accepts _ _ Ha E). simpl.
    destruct (accepts_true _ E) as [_ Etx].
    destruct (date_in d) as [dt|] eqn:Ed; simpl.
    + rewrite Z.leb_antisym.
      destruct (max_integer <? seq (db w) + 1) eqn:Em; simpl.
      { right. rewrite andb_false_r, <- app_assoc. simpl.
        repeat split; eauto. }
      destruct (existsb (has_id (seq (db w) + 1)) (table (db w))) eqn:Ei;
        simpl.
      { right. rewrite andb_false_r, <- app_assoc. simpl.
        repeat split; eauto. }
      destruct (existsb (has_email e) (table (db w))) eqn:Ee; simpl.
      { right. rewrite andb_false_r, <- app_assoc. simpl.
        repeat split; eauto. }
      unfold connection_commit, next_fault. simpl. rewrite !Etx.
      destruct (hd false (tl (faults (db w)))) eqn:Ef; simpl.
      * right. rewrite <- !app_assoc. simpl. repeat split; eauto.
      * left. rewrite <- !app_assoc. simpl. split; [reflexivity|].
        exists dt. repeat split; auto.
    + right. rewrite andb_false_r, <- app_assoc. simpl.
      repeat split; eauto.
  - destruct (cursor_execute_refuses (InsertStudent f l e d) _ Ha E)
      as (err & d' & H & Hd & Ht & Hs & Hf & Hl).
    rewrite !H. simpl. rewrite Hd, Hl, Hs, <- app_assoc. simpl.
    right. repeat split; eauto.
Qed.

(** C5: [addStudent] commits and returns the identifier that the sequence
    assigns when the server executes the insert and the commit: the texts
    can be bound, the date text is a date for the server, the sequence is
    not used up, the identifier and the email are not taken, and the
    environment fails neither call.  An identifier is returned in no other
    way.  Every other run with texts that can be bound meets a database
    error: the transaction is rolled back, the committed table is as before
    and the session sees it again, the error is reported and [None] is
    returned; an email already present in the table is such a case.  A text
    that holds NUL cannot be bound: [ValueError] leaves the method, and
    nothing was sent or printed. *)
Theorem addStudent_spec (w : World) (f l e d : string) :
  let r := fst (addStudent f l e d w) in
  let w' := snd (addStudent f l e d w) in
  let id := seq (db w) + 1 in
  (forall dt,
      adaptable (InsertStudent f l e d) = true ->
      accepts (db w) = true ->
      hd false (tl (faults (db w))) = false ->
      date_in d = Some dt ->
      id <= max_integer ->
      ~ In id (map student_id (table (db w))) ->
      ~ In e (map email (table (db w))) ->
      r = Ok (Some id) /\
      durable (db w') = table (db w) ++ [mkStudent id f l e dt] /\
      table (db w') = durable (db w') /\
      log (db w') = log (db w) ++ [Exec (InsertStudent f l e d); Commit] /\
      stdout w' = stdout w ++ [MsgAdded f l id])
  /\
  (forall id',
      r = Ok (Some id') ->
      id' = id /\
      ~ In id (map student_id (table (db w))) /\
      exists dt,
        date_in d = Some dt /\
        durable (db w') = table (db w) ++ [mkStudent id f l e dt] /\
        table (db w') = durable (db w') /\
        log (db w') = log (db w) ++ [Exec (InsertStudent f l e d); Commit] /\
        stdout w' = stdout w ++ [MsgAdded f l id])
  /\
  (adaptable (InsertStudent f l e d) = true ->
   (exists id', r = Ok (Some id')) \/
   (r = Ok None /\
    durable (db w') = durable (db w) /\
    table (db w') = durable (db w) /\
    (log (db w') = log (db w) ++ [Exec (InsertStudent f l e d); Rollback] \/
     log (db w')
     = log (db w) ++ [Exec (InsertStudent f l e d); Commit; Rollback]) /\
    exists err, stdout w' = stdout w ++ [MsgAddError (Error err)]))
  /\
  (adaptable (InsertStudent f l e d) = true ->
   In e (map email (table (db w))) -> r = Ok None)
  /\
  (adaptable (InsertStudent f l e d) = false ->
   r = Raise ValueError /\ w' = w).
Proof.
  cbv zeta.
  destruct (adaptable (InsertStudent f l e d)) eqn:Ha.
  2: { unfold addStudent, try_except, bind, on_db.
       rewrite !(cursor_execute_unadaptable _ _ Ha). simpl.
       repeat split; try discriminate. destruct w; reflexivity. }
  destruct (addStudent_cases w f l e d Ha)
    as [(Hc & dt & Hdt & Hr & Hd & Ht & Hl & Ho & _)
       |(Hc & Hr & Hd & Ht & Hl & Ho & _)].
  - apply insert_commits_true in Hc.
    destruct Hc as (Hc1 & Hc2 & Hc3 & Hc4 & Hc5 & Hc6).
    refine (conj _ (conj _ (conj _ (conj _ _)))).
    + intros dt' _ _ _ Hdt' _ _ _.
      assert (dt' = dt) by congruence. subst dt'. auto.
    + intros id' H. rewrite Hr in H. inversion H.
      split; [reflexivity|]. split; [exact Hc5|]. exists dt. auto.
    + intros _. left. eauto.
    + intros _ Hin. contradiction.
    + discriminate.
  - refine (conj _ (conj _ (conj _ (conj _ _)))).
    + intros dt _ H1 H2 H3 H4 H5 H6. exfalso.
      assert (insert_commits e d (db w) = true); [|congruence].
      apply insert_commits_true. repeat split; auto.
      rewrite H3. discriminate.
    + intros id' H. rewrite Hr in H. discriminate.
    + intros _. right. auto.
    + intros _ _. exact Hr.
    + discriminate.
Qed.

Lemma getAllStudents_accepts (w : World) :
  accepts (db w) = true ->
  fst (getAllStudents w) = Ok (map RowStudent (order_by_id (table (db w)))).
Proof.
  intros E. unfold getAllStudents, try_except, bind, on_db.
  rewrite !(cursor_execute_accepts SelectAll _ eq_refl E). simpl.
  destruct (order_by_id (table (db w))) as [|s l]; simpl; [reflexivity|].
  unfold bind, print. simpl. rewrite !for_each_print_student. reflexivity.
Qed.

(** What a successful [addStudent] leaves behind. *)
Lemma addStudent_ok_inv (w : World) (f l e d : string) (id : Z) :
  fst (addStudent f l e d w) = Ok (Some id) ->
  exists dt,
    adaptable (InsertStudent f l e d) = true /\
    date_in d = Some dt /\
    existsb (has_id id) (table (db w)) = false /\
    table (db (snd (addStudent f l e d w)))
    = table (db w) ++ [mkStudent id f l e dt] /\
    tx_failed (db (snd (addStudent f l e d w))) = false /\
    faults (db (snd (addStudent f l e d w))) = tl (tl (faults (db w))).
Proof.
  intros Hok.
  destruct (adaptable (InsertStudent f l e d)) eqn:Ha.
  - destruct (addStudent_cases w f l e d Ha)
      as [(Hc & dt & Hdt & Hr & Hd & Ht & Hl & Ho & Htx & Hs & Hf)
         |(Hc & Hr & _)]; [|congruence].
    rewrite Hr in Hok. inversion Hok; subst id.
    apply insert_commits_true in Hc.
    destruct Hc as (_ & _ & _ & _ & Hc5 & _).
    rewrite <- existsb_has_id in Hc5. apply not_true_is_false in Hc5.
    exists dt. rewrite Ht, Hd. repeat split; auto.
  - revert Hok. unfold addStudent, try_except, bind, on_db.
    rewrite !(cursor_execute_unadaptable _ _ Ha). discriminate.
Qed.

(** The columns of a row made of texts that can be bound. *)
Lemma to_text_ok (s : string) : has_nul s = false -> text_of (to_text s) = s.
Proof.
  intros H. unfold to_text, adapt_text.
  generalize (eq_refl (has_nul s)).
  generalize (has_nul s) at 2 3. intros b Hb.
  destruct b; [congruence | reflexivity].
Qed.

Lemma mkStudent_columns (id : Z) (f l e d : string) (dt : Date) :
  adaptable (InsertStudent f l e d) = true ->
  student_id (mkStudent id f l e dt) = id /\
  first_name (mkStudent id f l e dt) = f /\
  last_name (mkStudent id f l e dt) = l /\
  email (mkStudent id f l e dt) = e /\
  enrollment_date (mkStudent id f l e dt) = dt.
Proof.
  intros Ha. apply adaptable_insert in Ha. destruct Ha as (Hf & Hl & He & _).
  unfold first_name, last_name, email. simpl.
  rewrite !to_text_ok by assumption. auto.
Qed.

(** C7: after a successful [addStudent] that returned [id], the listing
    obtained by the next query holds exactly one row with identifier [id];
    its first name, last name and email are the inserted strings and its
    enrollment date is the date that the inserted text denotes: the row is
    [mkStudent id f l e dt], and its columns read back as [f], [l], [e] and
    [dt]. *)
Theorem addStudent_then_lookup (w : World) (f l e d : string) (id : Z) :
  fst (addStudent f l e d w) = Ok (Some id) ->
  hd false (faults (db (snd (addStudent f l e d w)))) = false ->
  exists dt rows,
    date_in d = Some dt /\
    fst (getAllStudents (snd (addStudent f l e d w)))
    = Ok (map RowStudent rows) /\
    filter (has_id id) rows = [mkStudent id f l e dt] /\
    first_name (mkStudent id f l e dt) = f /\
    last_name (mkStudent id f l e dt) = l /\
    email (mkStudent id f l e dt) = e /\
    enrollment_date (mkStudent id f l e dt) = dt.
Proof.
  intros Hok Hnext.
  destruct (addStudent_ok_inv w f l e d id Hok)
    as (dt & Ha & Hd & Hfresh & Ht & Htx & _).
  set (w1 := snd (addStudent f l e d w)) in *.
  assert (E : accepts (db w1) = true).
  { unfold accepts. rewrite Hnext, Htx. reflexivity. }
  exists dt, (order_by_id (table (db w1))).
  split; [exact Hd|]. split; [apply getAllStudents_accepts, E|].
  split; [|apply (mkStudent_columns id f l e d dt Ha)].
  apply Permutation_length_1_inv.
  eapply perm_trans; [|apply filter_perm, Permutation_sym, order_by_id_perm].
  rewrite Ht, filter_app, (filter_has_id_nil _ _ Hfresh). simpl.
  unfold has_id. simpl. rewrite Z.eqb_refl. apply Permutation_refl.
Qed.

(** Two texts with the same characters are the same text. *)
Lemma Text_eq (a b : Text) : text_of a = text_of b -> a = b.
Proof.
  destruct a as [s Hs], b as [s' Hs']. simpl. intros <-.
  f_equal. apply UIP_dec, bool_dec.
Qed.

Lemma to_text_of (t : Text) : to_text (text_of t) = t.
Proof. apply Text_eq, to_text_ok, text_ok. Qed.

Lemma email_with_email (e : string) (s : Student) :
  has_nul e = false -> email (with_email e s) = e.
Proof. intros H. unfold email. simpl. apply to_text_ok, H. Qed.

Lemma update_email_no_clash (e : string) (id : Z) (t : list Student) :
  has_nul e = false ->
  existsb (has_email e) (update_email_where e id t) = false ->
  filter (has_id id) t = [].
Proof.
  intros He.
  induction t as [|s t IH]; simpl; [reflexivity|].
  destruct (has_id id s); simpl.
  - unfold has_email at 1. rewrite (email_with_email _ _ He).
    rewrite String.eqb_refl. discriminate.
  - rewrite orb_false_iff. intros [_ H]. exact (IH H).
Qed.

(** An update that respects the unique constraint on emails touched at most
    one row. *)
Lemma update_email_at_most_one (e : string) (id : Z) (t : list Student) :
  has_nul e = false ->
  distinct_emails (update_email_where e id t) = true ->
  (List.length (filter (has_id id) t) <= 1)%nat.
Proof.
  intros He.
  induction t as [|s t IH]; simpl; [lia|].
  rewrite andb_true_iff, negb_true_iff. intros [H1 H2].
  destruct (has_id id s); simpl in *.
  - rewrite (email_with_email _ _ He) in H1.
    rewrite (update_email_no_clash _ _ _ He H1). simpl. lia.
  - exact (IH H2).
Qed.

Lemma update_email_exactly_one (e : string) (id : Z) (t : list Student) :
  has_nul e = false ->
  existsb (has_id id) t = true ->
  distinct_emails (update_email_where e id t) = true ->
  count_where id t = 1.
Proof.
  intros He Hex Hd. unfold count_where.
  apply (update_email_at_most_one _ _ _ He) in Hd.
  destruct (filter_has_id_cons _ _ Hex) as (s & rest & Hf & _).
  rewrite Hf in *. simpl in *. lia.
Qed.

(** The three ways [updateStudentEmail] ends for an identifier of the
    table: the update is committed; a database error is handled; or the new
    email cannot be bound. *)
Lemma updateStudentEmail_cases (w : World) (id : Z) (e : string) :
  In id (map student_id (table (db w))) ->
  let r := fst (updateStudentEmail id e w) in
  let w' := snd (updateStudentEmail id e w) in
  (update_commits e id (db w) = true /\
   r = Ok true /\
   rowcount (db w') = 1 /\
   count_where id (table (db w)) = 1 /\
   table (db w') = update_email_where e id (table (db w)) /\
   durable (db w') = table (db w') /\
   log (db w')
   = log (db w) ++ [Exec (SelectById id); Exec (UpdateEmail e id); Commit] /\
   exists s,
     In s (table (db w)) /\ student_id s = id /\
     stdout w'
     = stdout w ++ [MsgUpdated (first_name s) (last_name s) (email s) e])
  \/
  (update_commits e id (db w) = false /\
   r = Ok false /\
   durable (db w') = durable (db w) /\
   table (db w') = durable (db w) /\
   (exists sent, log (db w') = log (db w) ++ sent ++ [Rollback]) /\
   exists err, stdout w' = stdout w ++ [MsgUpdateError (Error err)])
  \/
  (has_nul e = true /\
   accepts (db w) = true /\
   r = Raise ValueError /\
   durable (db w') = durable (db w) /\
   table (db w') = table (db w) /\
   log (db w') = log (db w) ++ [Exec (SelectById id)] /\
   stdout w' = stdout w).
Proof.
  stated_only.
  intros Hin. apply existsb_has_id in Hin.
  destruct (filter_has_id_cons _ _ Hin) as (s & rest & Hf & Hs).
  assert (Hs_in : In s (table (db w))).
  { assert (H : In s (filter (has_id id) (table (db w))))
      by (rewrite Hf; left; reflexivity).
    apply filter_In in H. tauto. }
  cbv zeta.
  unfold update_commits, updateStudentEmail, try_except, bind, on_db.
  destruct (accepts (db w)) eqn:E.
  - rewrite !(cursor_execute_accepts (SelectById id) _ eq_refl E).
    destruct (accepts_true _ E) as [_ Etx].
    simpl. rewrite !Hf. simpl.
    unfold cursor_execute, next_fault. rewrite !adaptable_update.
    destruct (has_nul e) eqn:En; simpl.
    { right. right. repeat split; auto. }
    rewrite !Etx.
    destruct (hd false (tl (faults (db w)))) eqn:Ef1; simpl.
    + right. left. repeat split; eauto.
      exists [Exec (SelectById id); Exec (UpdateEmail e id)].
      rewrite <- !app_assoc. reflexivity.
    + rewrite !Hin. simpl.
      destruct (distinct_emails (update_email_where e id (table (db w))))
        eqn:Ed; simpl.
      * unfold connection_commit, next_fault. simpl. rewrite !Etx.
        destruct (hd false (tl (tl (faults (db w))))) eqn:Ef2; simpl.
        -- right. left. repeat split; eauto.
           exists [Exec (SelectById id); Exec (UpdateEmail e id); Commit].
           rewrite <- !app_assoc. reflexivity.
        -- pose proof (update_email_exactly_one _ _ _ En Hin Ed) as Hone.
           left. unfold update_report. rewrite !Hone. simpl.
           rewrite <- !app_assoc. simpl. repeat split; auto.
           exists s. auto.
      * right. left. rewrite andb_false_r. repeat split; eauto.
        exists [Exec (SelectById id); Exec (UpdateEmail e id)].
        rewrite <- !app_assoc. reflexivity.
  - destruct (cursor_execute_refuses (SelectById id) _ eq_refl E)
      as (err & d' & H & Hd & Ht & Hq & Hfl & Hl).
    rewrite !H. simpl. rewrite Hd, Hl.
    right. left. rewrite andb_false_r. repeat split; eauto.
    exists [Exec (SelectById id)]. rewrite <- !app_assoc. reflexivity.
Qed.

Lemma update_commits_true (e : string) (id : Z) (d0 : Db) :
  update_commits e id d0 = true <->
  has_nul e = false /\
  accepts d0 = true /\
  hd false (tl (faults d0)) = false /\
  hd false (tl (tl (faults d0))) = false /\
  distinct_emails (update_email_where e id (table d0)) = true.
Proof.
  stated_only.
  unfold update_commits.
  rewrite !andb_true_iff, !negb_true_iff. tauto.
Qed.


Lemma calm_3 (d : Db) :
  calm 3 d ->
  hd false (faults d) = false /\
  hd false (tl (faults d)) = false /\
  hd false (tl (tl (faults d))) = false.
Proof.
  intros H.
  pose proof (H 0%nat ltac:(lia)) as H0.
  pose proof (H 1%nat ltac:(lia)) as H1.
  pose proof (H 2%nat ltac:(lia)) as H2.
  destruct (faults d) as [|a [|b [|c fs]]]; simpl in *; auto.
Qed.

Lemma distinct_ids_inj (t : list Student) (x s : Student) :
  distinct_ids t = true -> In x t -> In s t ->
  student_id x = student_id s -> x = s.
Proof.
  stated_only.
  induction t as [|y t IH]; simpl; [tauto|].
  rewrite andb_true_iff, negb_true_iff.
  intros [Hy Ht] [Hx|Hx] [Hs|Hs] Heq; subst; auto.
  - exfalso. apply not_true_iff_false in Hy. apply Hy.
    apply existsb_has_id. rewrite Heq. apply in_map. exact Hs.
  - exfalso. apply not_true_iff_false in Hy. apply Hy.
    apply existsb_has_id. rewrite <- Heq. apply in_map. exact Hx.
Qed.

Lemma with_email_same (s : Student) : with_email (email s) s = s.
Proof.
  destruct s as [i f l m dt]. unfold with_email, email. simpl.
  rewrite to_text_of. reflexivity.
Qed.

(** Setting a student's email to the one it has leaves the table as it
    is. *)
Lemma update_email_same (t : list Student) (s : Student) :
  distinct_ids t = true -> In s t ->
  update_email_where (email s) (student_id s) t = t.
Proof.
  intros Hd Hs. unfold update_email_where.
  rewrite <- (map_id t) at 2. apply map_ext_in.
  intros x Hx. destruct (has_id (student_id s) x) eqn:E; [|reflexivity].
  apply Z.eqb_eq in E.
  rewrite (distinct_ids_inj t x s Hd Hx Hs E). apply with_email_same.
Qed.

Lemma filter_has_id_head (t : list Student) (s : Student) :
  distinct_ids t = true -> In s t ->
  exists rest, filter (has_id (student_id s)) t = s :: rest.
Proof.
  stated_only.
  intros Hd Hs.
  assert (Hex : existsb (has_id (student_id s)) t = true).
  { apply existsb_has_id, in_map, Hs. }
  destruct (filter_has_id_cons _ _ Hex) as (x & rest & Hf & Hx).
  exists rest. rewrite Hf. f_equal.
  apply (distinct_ids_inj t x s Hd); auto.
  assert (Hin : In x (filter (has_id (student_id s)) t))
    by (rewrite Hf; left; reflexivity).
  apply filter_In in Hin. tauto.
Qed.

(** C10: for a student of the table, setting the email to the value it
    already has sends the update, commits it and returns [True], provided
    that the server executes the three calls. *)
Theorem updateStudentEmail_same_email (w : World) (s : Student) :
  wf_table (table (db w)) ->
  In s (table (db w)) ->
  tx_failed (db w) = false ->
  calm 3 (db w) ->
  let r := fst (updateStudentEmail (student_id s) (email s) w) in
  let w' := snd (updateStudentEmail (student_id s) (email s) w) in
  r = Ok true /\
  log (db w')
  = log (db w) ++ [Exec (SelectById (student_id s));
                   Exec (UpdateEmail (email s) (student_id s)); Commit] /\
  table (db w') = table (db w) /\
  durable (db w') = table (db w) /\
  stdout w'
  = stdout w ++ [MsgUpdated (first_name s) (last_name s) (email s) (email s)].
Proof.
  intros [Hids Hemails] Hs Etx Hcalm.
  destruct (calm_3 _ Hcalm) as (Hf0 & Hf1 & Hf2).
  assert (E : accepts (db w) = true).
  { unfold accepts. rewrite Hf0, Etx. reflexivity. }
  assert (Hin : existsb (has_id (student_id s)) (table (db w)) = true).
  { apply existsb_has_id, in_map, Hs. }
  destruct (filter_has_id_head _ _ Hids Hs) as (rest & Hf).
  pose proof (update_email_same _ _ Hids Hs) as Hsame.
  assert (Hd : distinct_emails
                 (update_email_where (email s) (student_id s) (table (db w)))
               = true) by (rewrite Hsame; exact Hemails).
  pose proof (text_ok (email_text s)) as En. fold (email s) in En.
  cbv zeta. unfold updateStudentEmail, update_report, try_except, bind, on_db.
  rewrite !(cursor_execute_accepts (SelectById (student_id s)) _ eq_refl E).
  simpl. rewrite !Hf. simpl.
  unfold cursor_execute, next_fault. rewrite !adaptable_update, !En. simpl.
  rewrite !Etx, !Hf1. simpl.
  rewrite !Hin, !Hd. simpl.
  unfold connection_commit, next_fault. simpl. rewrite !Etx, !Hf2. simpl.
  rewrite !(update_email_exactly_one _ _ _ En Hin Hd). simpl.
  rewrite !Hsame, <- !app_assoc. simpl. repeat split.
Qed.

(** C4: for an identifier absent from the table, [deleteStudent] returns
    [False]; the table and its committed content are as before, and the
    only statements sent are the existence check and, if the check itself
    fails, the rollback: no delete and no commit.  When the check is
    executed, "no student found" is what gets printed. *)
Theorem deleteStudent_absent (w : World) (id : Z) :
  ~ In id (map student_id (table (db w))) ->
  clean (db w) ->
  let r := fst (deleteStudent id w) in
  let w' := snd (deleteStudent id w) in
  r = Ok false /\
  table (db w') = table (db w) /\
  durable (db w') = durable (db w) /\
  (log (db w') = log (db w) ++ [Exec (SelectById id)] \/
   log (db w') = log (db w) ++ [Exec (SelectById id); Rollback]) /\
  (forall id', ~ In (Exec (DeleteById id')) (log (db w)) ->
               ~ In (Exec (DeleteById id')) (log (db w'))) /\
  (accepts (db w) = true -> stdout w' = stdout w ++ [MsgNotFound id]).
Proof.
  stated_only.
  intros Habs Hclean.
  rewrite <- existsb_has_id in Habs. apply not_true_is_false in Habs.
  cbv zeta. unfold deleteStudent, try_except, bind, on_db.
  destruct (accepts (db w)) eqn:E.
  - rewrite !(cursor_execute_accepts (SelectById id) _ eq_refl E). simpl.
    rewrite !(filter_has_id_nil _ _ Habs). simpl.
    repeat split; auto.
    intros id' Hn Hin. apply in_app_or in Hin. simpl in Hin.
    destruct Hin as [Hin|[Hin|[]]]; [tauto | discriminate].
  - destruct (cursor_execute_refuses (SelectById id) _ eq_refl E)
      as (err & d' & H & Hd & Ht & Hs & Hf & Hl).
    rewrite !H. simpl. rewrite Hd, Hl. unfold clean in Hclean.
    repeat split; auto.
    + right. rewrite <- app_assoc. reflexivity.
    + intros id' Hn Hin. rewrite !in_app_iff in Hin. simpl in Hin.
      destruct Hin as [[Hin|[Hin|[]]]|[Hin|[]]];
        [tauto | discriminate | discriminate].
    + discriminate.
Qed.

(** [addStudent] returns when its texts can be bound, and raises
    [ValueError] before anything is sent when they cannot. *)
Lemma addStudent_returns (w : World) (f l e d : string) :
  adaptable (InsertStudent f l e d) = true ->
  exists o, fst (addStudent f l e d w) = Ok o.
Proof.
  intros Ha.
  destruct (addStudent_cases w f l e d Ha)
    as [(_ & dt & _ & Hr & _)|(_ & Hr & _)]; eauto.
Qed.

Lemma addStudent_unadaptable (w : World) (f l e d : string) :
  adaptable (InsertStudent f l e d) = false ->
  addStudent f l e d w = (Raise ValueError, w).
Proof.
  intros Ha. unfold addStudent, try_except, bind, on_db.
  rewrite !(cursor_execute_unadaptable _ _ Ha). simpl.
  destruct w; reflexivity.
Qed.

(** [deleteStudent] catches every exception it can meet: it returns. *)
Lemma deleteStudent_returns (w : World) (id : Z) :
  exists b, fst (deleteStudent id w) = Ok b.
Proof.
  unfold deleteStudent, try_except, bind, on_db.
  destruct (accepts (db w)) eqn:E.
  - rewrite !(cursor_execute_accepts (SelectById id) _ eq_refl E). simpl.
    destruct (filter (has_id id) (table (db w))) as [|s rest]; simpl;
      [eauto|].
    unfold cursor_execute, next_fault. simpl.
    destruct (hd false (tl (faults (db w)))); simpl; [eauto|].
    destruct (tx_failed (db w)); simpl; [eauto|].
    unfold connection_commit, next_fault. simpl.
    destruct (hd false (tl (tl (faults (db w))))); simpl; [eauto|].
    destruct (tx_failed (db w)); simpl;
      match goal with |- context [if ?c then _ else _] => destruct c end;
      simpl; eauto.
  - destruct (cursor_execute_refuses (SelectById id) _ eq_refl E)
      as (err & d' & H & _).
    rewrite !H. simpl. eauto.
Qed.

(** C8 (amended): in the branch for menu choice 2 the stripped date text is
    parsed by [strptime] with the format [%Y-%m-%d] before [addStudent] is
    called.  When the four answers are on the input and the text does not
    parse, the branch prints the invalid-date message and the connection is
    left exactly as it was: no statement is sent.  When it parses and the
    stripped answers can be bound, the branch does what [addStudent] does on
    them.  When it parses and an answer holds NUL, the [ValueError] of
    [addStudent] is taken for a date error: the same message is printed and
    no statement is sent. *)
Theorem add_student_flow_validates_date
  (w : World) (l1 l2 l3 l4 : string) (rest : list Input) :
  stdin w = Line l1 :: Line l2 :: Line l3 :: Line l4 :: rest ->
  let first := py_strip l1 in
  let last := py_strip l2 in
  let mail := py_strip l3 in
  let date := py_strip l4 in
  let asked :=
    prompted [MsgAddHeading; MsgPrompt PFirstName; MsgPrompt PLastName;
              MsgPrompt PEmail; MsgPrompt PDate] rest w in
  fst (menu_choice "2" w) = Ok false /\
  (py_strptime date = None ->
   db (snd (menu_choice "2" w)) = db w /\
   snd (menu_choice "2" w)
   = set_stdout (stdout asked ++ [MsgInvalidDate]) asked) /\
  (py_strptime date <> None ->
   adaptable (InsertStudent first last mail date) = true ->
   snd (menu_choice "2" w) = snd (addStudent first last mail date asked)) /\
  (py_strptime date <> None ->
   adaptable (InsertStudent first last mail date) = false ->
   db (snd (menu_choice "2" w)) = db w /\
   snd (menu_choice "2" w)
   = set_stdout (stdout asked ++ [MsgInvalidDate]) asked).
Proof.
  intros Hin first last mail date asked.
  assert (Hrun :
    menu_choice "2" w
    = (try_except
         (strptime_stmt date ;;
          addStudent first last mail date ;;
          ret tt)
         is_ValueError
         (fun _ => print MsgInvalidDate) ;;
       ret false) asked).
  { unfold menu_choice. simpl.
    unfold add_student_flow, input, print.
    unfold bind at 1 2 3 4 5 6 7 8 9 10 11 12 13 14. simpl.
    rewrite Hin. simpl.
    unfold asked, prompted, set_stdin, set_stdout. simpl.
    rewrite <- !app_assoc. reflexivity. }
  rewrite Hrun. clear Hrun.
  unfold bind, try_except, strptime_stmt, ret.
  destruct (py_strptime date) as [dt|] eqn:Ep.
  - destruct (adaptable (InsertStudent first last mail date)) eqn:Ha.
    + destruct (addStudent_returns asked first last mail date Ha) as [o Ho].
      destruct (addStudent first last mail date asked) as [r w1].
      simpl in Ho. subst r. simpl.
      repeat split; intros; congruence.
    + rewrite (addStudent_unadaptable asked _ _ _ _ Ha). simpl.
      repeat split; intros; congruence.
  - simpl. repeat split; intros; congruence.
Qed.

(** C9 (amended): in the branch for menu choice 4, once the identifier has
    been read, [deleteStudent] is called exactly when the answer to the
    confirmation prompt, stripped of surrounding white space and put in
    lower case, is "yes"; then the branch does what [deleteStudent] does.
    For every other answer the deletion is cancelled and the connection is
    left exactly as it was. *)
Theorem delete_student_flow_confirmation
  (w : World) (l1 l2 : string) (rest : list Input) (id : Z) :
  stdin w = Line l1 :: Line l2 :: rest ->
  py_int (py_strip l1) = Some id ->
  let asked :=
    prompted [MsgDeleteHeading; MsgPrompt PDeleteId; MsgPrompt (PConfirm id)]
      rest w in
  fst (menu_choice "4" w) = Ok false /\
  (py_lower (py_strip l2) = "yes" ->
   snd (menu_choice "4" w) = snd (deleteStudent id asked)) /\
  (py_lower (py_strip l2) <> "yes" ->
   db (snd (menu_choice "4" w)) = db w /\
   snd (menu_choice "4" w)
   = set_stdout (stdout asked ++ [MsgCancelled]) asked).
Proof.
  intros Hin Hid asked.
  unfold menu_choice. simpl.
  unfold delete_student_flow, input, print, int_expr, try_except, bind.
  simpl. rewrite Hin. simpl. rewrite Hid. simpl.
  unfold asked, prompted, set_stdin, set_stdout. simpl.
  rewrite <- !app_assoc. simpl.
  destruct (String.eqb (py_lower (py_strip l2)) "yes") eqn:Ey.
  - apply String.eqb_eq in Ey.
    match goal with
    | |- context [deleteStudent id ?W] =>
        destruct (deleteStudent_returns W id) as [b Hb];
        destruct (deleteStudent id W) as [r w1]
    end.
    simpl in Hb. subst r. simpl.
    repeat split; intros; congruence.
  - apply String.eqb_neq in Ey. simpl.
    repeat split; intros; try congruence.
    rewrite <- !app_assoc. reflexivity.
Qed.

(* ================================================================== *)
(** * The constraints of the table are an invariant *)
(* ================================================================== *)

(** A new session is [consistent], and the three methods that write keep
    the connection so, whatever the environment does.  [getAllStudents]
    keeps it so when its query is executed; its handler does not roll back,
    hence after a failed query the transaction stays in the failed state
    until the next method rolls back. *)

Lemma distinct_ids_snoc (t : list Student) (s : Student) :
  distinct_ids t = true -> existsb (has_id (student_id s)) t = false ->
  distinct_ids (t ++ [s]) = true.
Proof.
  rewrite !distinct_ids_NoDup, <- not_true_iff_false, existsb_has_id.
  intros Hn Hs. rewrite map_app. simpl.
  apply NoDup_rev in Hn. rewrite <- (rev_involutive (_ ++ _)).
  apply NoDup_rev. rewrite rev_app_distr. simpl.
  constructor; [|exact Hn]. rewrite <- in_rev. exact Hs.
Qed.

Lemma distinct_emails_snoc (t : list Student) (s : Student) :
  distinct_emails t = true -> existsb (has_email (email s)) t = false ->
  distinct_emails (t ++ [s]) = true.
Proof.
  rewrite !distinct_emails_NoDup, <- not_true_iff_false, existsb_has_email.
  intros Hn Hs. rewrite map_app. simpl.
  apply NoDup_rev in Hn. rewrite <- (rev_involutive (_ ++ _)).
  apply NoDup_rev. rewrite rev_app_distr. simpl.
  constructor; [|exact Hn]. rewrite <- in_rev. exact Hs.
Qed.

Lemma update_email_ids (e : string) (id : Z) (t : list Student) :
  map student_id (update_email_where e id t) = map student_id t.
Proof.
  unfold update_email_where. rewrite map_map. apply map_ext.
  intros s. destruct (has_id id s); reflexivity.
Qed.

(** Deleting rows keeps the values of any column pairwise distinct. *)
Lemma delete_where_NoDup {B} (column : Student -> B) (id : Z)
  (t : list Student) :
  NoDup (map column t) -> NoDup (map column (delete_where id t)).
Proof.
  stated_only.
  unfold delete_where.
  induction t as [|s t IH]; simpl; intros Hn; [constructor|].
  apply NoDup_cons_iff in Hn. destruct Hn as [Hs Ht].
  destruct (has_id id s); simpl; [exact (IH Ht)|].
  constructor; [|exact (IH Ht)].
  intros Hin. apply Hs.
  apply in_map_iff in Hin. destruct Hin as (y & Hy & Hin).
  apply filter_In in Hin. rewrite <- Hy. apply in_map. tauto.
Qed.

Lemma wf_table_delete (id : Z) (t : list Student) :
  wf_table t -> wf_table (delete_where id t).
Proof.
  unfold wf_table.
  rewrite !distinct_ids_NoDup, !distinct_emails_NoDup.
  intros [H1 H2]. split; apply delete_where_NoDup; assumption.
Qed.

Lemma wf_table_update (e : string) (id : Z) (t : list Student) :
  wf_table t ->
  distinct_emails (update_email_where e id t) = true ->
  wf_table (update_email_where e id t).
Proof.
  unfold wf_table. intros [H1 _] H2. split; [|exact H2].
  rewrite distinct_ids_NoDup, update_email_ids, <- distinct_ids_NoDup.
  exact H1.
Qed.

Lemma consistent_open_session (d : Db) :
  wf_table (durable d) -> consistent (open_session d).
Proof. intros H. repeat split; apply H. Qed.

Lemma consistent_getAllStudents (w : World) :
  consistent (db w) -> accepts (db w) = true ->
  consistent (db (snd (getAllStudents w))).
Proof.
  intros (Hc & Hw & Htx) E.
  unfold getAllStudents, try_except, bind, on_db.
  rewrite !(cursor_execute_accepts SelectAll _ eq_refl E). simpl.
  destruct (order_by_id (table (db w))) as [|s l]; simpl.
  - repeat split; simpl; solve [apply Hw | assumption].
  - unfold bind, print. simpl. rewrite !for_each_print_student. simpl.
    repeat split; simpl; solve [apply Hw | assumption].
Qed.

Lemma consistent_addStudent (w : World) (f l e d : string) :
  consistent (db w) -> consistent (db (snd (addStudent f l e d w))).
Proof.
  intros (Hc & Hw & Htx). unfold clean in Hc.
  destruct (adaptable (InsertStudent f l e d)) eqn:Ha.
  - destruct (addStudent_cases w f l e d Ha)
      as [(Hi & dt & Hdt & Hr & Hd & Ht & Hl & Ho & Htx' & _)
         |(Hi & Hr & Hd & Ht & Hl & Ho & Htx' & _)].
    + apply insert_commits_true in Hi.
      destruct Hi as (_ & _ & _ & _ & Hid & Hem).
      rewrite <- existsb_has_id in Hid. apply not_true_is_false in Hid.
      rewrite <- existsb_has_email in Hem. apply not_true_is_false in Hem.
      destruct (mkStudent_columns (seq (db w) + 1) f l e d dt Ha)
        as (_ & _ & _ & Hmail & _).
      unfold consistent, clean. rewrite Ht, Hd.
      split; [reflexivity|]. split; [|exact Htx'].
      split.
      * apply distinct_ids_snoc; [apply Hw | exact Hid].
      * apply distinct_emails_snoc; [apply Hw | rewrite Hmail; exact Hem].
    + unfold consistent, clean. rewrite Ht, Hd, <- Hc.
      repeat split; solve [apply Hw | assumption].
  - rewrite (addStudent_unadaptable w _ _ _ _ Ha). simpl.
    repeat split; solve [apply Hw | assumption].
Qed.

Lemma consistent_updateStudentEmail (w : World) (id : Z) (e : string) :
  consistent (db w) -> consistent (db (snd (updateStudentEmail id e w))).
Proof.
  intros (Hc & Hw & Htx). unfold clean in Hc.
  unfold updateStudentEmail, try_except, bind, on_db.
  destruct (accepts (db w)) eqn:E.
  - rewrite !(cursor_execute_accepts (SelectById id) _ eq_refl E). simpl.
    destruct (filter (has_id id) (table (db w))) as [|s rest] eqn:Hf; simpl.
    + repeat split; simpl; solve [apply Hw | assumption].
    + unfold cursor_execute, next_fault. rewrite !adaptable_update.
      destruct (has_nul e) eqn:En; simpl;
        [repeat split; simpl; solve [apply Hw | assumption]|].
      rewrite !Htx.
      destruct (hd false (tl (faults (db w)))); simpl.
      * repeat split; simpl; rewrite <- ?Hc; apply Hw.
      * destruct (existsb (has_id id) (table (db w)) &&
                  negb (distinct_emails
                          (update_email_where e id (table (db w))))) eqn:Ev;
          simpl.
        -- repeat split; simpl; rewrite <- ?Hc; apply Hw.
        -- assert (Hd : distinct_emails
                          (update_email_where e id (table (db w))) = true).
           { destruct (existsb (has_id id) (table (db w))) eqn:Ex.
             - simpl in Ev. apply negb_false_iff in Ev. exact Ev.
             - rewrite (filter_has_id_nil _ _ Ex) in Hf. discriminate. }
           unfold connection_commit, next_fault. simpl. rewrite !Htx.
           destruct (hd false (tl (tl (faults (db w))))); simpl.
           ++ repeat split; simpl; rewrite <- ?Hc; apply Hw.
           ++ unfold update_report, bind, print, ret.
              match goal with
              | |- context [if ?c then _ else _] => destruct c
              end;
                simpl; (split; [reflexivity|]; split; [|assumption]);
                apply wf_table_update; assumption.
  - destruct (cursor_execute_refuses (SelectById id) _ eq_refl E)
      as (err & d' & H & Hd & _).
    rewrite !H. unfold consistent, clean. simpl. rewrite Hd, <- Hc.
    repeat split; apply Hw.
Qed.

Lemma consistent_deleteStudent (w : World) (id : Z) :
  consistent (db w) -> consistent (db (snd (deleteStudent id w))).
Proof.
  intros (Hc & Hw & Htx). unfold clean in Hc.
  unfold deleteStudent, try_except, bind, on_db.
  destruct (accepts (db w)) eqn:E.
  - rewrite !(cursor_execute_accepts (SelectById id) _ eq_refl E). simpl.
    destruct (filter (has_id id) (table (db w))) as [|s rest] eqn:Hf; simpl.
    + repeat split; simpl; solve [apply Hw | assumption].
    + unfold cursor_execute, next_fault. simpl. rewrite !Htx.
      destruct (hd false (tl (faults (db w)))); simpl.
      * repeat split; simpl; rewrite <- ?Hc; apply Hw.
      * unfold connection_commit, next_fault. simpl. rewrite !Htx.
        destruct (hd false (tl (tl (faults (db w))))); simpl.
        -- repeat split; simpl; rewrite <- ?Hc; apply Hw.
        -- match goal with
           | |- context [if ?c then _ else _] => destruct c
           end;
             simpl; (split; [reflexivity|]; split; [|assumption]);
             apply wf_table_delete; assumption.
  - destruct (cursor_execute_refuses (SelectById id) _ eq_refl E)
      as (err & d' & H & Hd & _).
    rewrite !H. unfold consistent, clean. simpl. rewrite Hd, <- Hc.
    repeat split; apply Hw.
Qed.

(* ================================================================== *)
(** * Further properties: the shell's checks on identifiers *)
(* ================================================================== *)

Lemma getAllStudents_returns (w : World) :
  exists rows, fst (getAllStudents w) = Ok rows.
Proof.
  destruct (accepts (db w)) eqn:E.
  - rewrite (getAllStudents_accepts w E). eauto.
  - unfold getAllStudents, try_except, bind, on_db.
    destruct (cursor_execute_refuses SelectAll _ eq_refl E) as (err & d' & H & _).
    rewrite !H. simpl. eauto.
Qed.

(** [updateStudentEmail] returns, or raises [ValueError] for an email that
    cannot be bound. *)
Lemma updateStudentEmail_returns (w : World) (id : Z) (e : string) :
  (exists b, fst (updateStudentEmail id e w) = Ok b) \/
  (fst (updateStudentEmail id e w) = Raise ValueError /\
   has_nul e = true /\
   In id (map student_id (table (db w))) /\
   accepts (db w) = true /\
   durable (db (snd (updateStudentEmail id e w))) = durable (db w) /\
   table (db (snd (updateStudentEmail id e w))) = table (db w) /\
   log (db (snd (updateStudentEmail id e w)))
   = log (db w) ++ [Exec (SelectById id)] /\
   stdout (snd (updateStudentEmail id e w)) = stdout w).
Proof.
  destruct (existsb (has_id id) (table (db w))) eqn:Ex.
  - apply existsb_has_id in Ex.
    destruct (updateStudentEmail_cases w id e Ex)
      as [(_ & Hr & _)|[(_ & Hr & _)|(Hn & Ha & Hr & Hd & Ht & Hl & Ho)]];
      eauto.
    right. repeat split; auto.
  - left. unfold updateStudentEmail, try_except, bind, on_db.
    destruct (accepts (db w)) eqn:E.
    + rewrite !(cursor_execute_accepts (SelectById id) _ eq_refl E). simpl.
      rewrite !(filter_has_id_nil _ _ Ex). simpl. eauto.
    + destruct (cursor_execute_refuses (SelectById id) _ eq_refl E)
        as (err & d' & H & _).
      rewrite !H. simpl. eauto.
Qed.

(** X1: in the branch for menu choice 3 the identifier is parsed before
    anything else happens.  When the answer is not an integer the branch
    prints the invalid-identifier message, does not ask for the new email
    (the next line stays on the input) and leaves the connection exactly as
    it was.  When it is an integer, the branch does what
    [updateStudentEmail] does on it and on the stripped second answer; if
    that raises [ValueError], which it does only for an email that holds
    NUL, the branch prints the invalid-identifier message after it. *)
Theorem update_email_flow_validates_id
  (w : World) (l1 : string) (rest0 : list Input) :
  stdin w = Line l1 :: rest0 ->
  (py_int (py_strip l1) = None ->
   menu_choice "3" w
   = (Ok false,
      prompted [MsgUpdateHeading; MsgPrompt PStudentId; MsgInvalidId]
        rest0 w)) /\
  (forall id l2 rest,
      py_int (py_strip l1) = Some id ->
      rest0 = Line l2 :: rest ->
      let asked :=
        prompted [MsgUpdateHeading; MsgPrompt PStudentId; MsgPrompt PNewEmail]
          rest w in
      let r := fst (updateStudentEmail id (py_strip l2) asked) in
      let w1 := snd (updateStudentEmail id (py_strip l2) asked) in
      fst (menu_choice "3" w) = Ok false /\
      ((exists b, r = Ok b) \/ r = Raise ValueError) /\
      (has_nul (py_strip l2) = false -> exists b, r = Ok b) /\
      ((exists b, r = Ok b) -> snd (menu_choice "3" w) = w1) /\
      (r = Raise ValueError ->
       snd (menu_choice "3" w)
       = set_stdout (stdout w1 ++ [MsgInvalidId]) w1)).
Proof.
  intros Hin. split.
  - intros Hid.
    unfold menu_choice. simpl.
    unfold update_email_flow, input, print, int_expr, try_except, bind.
    simpl. rewrite Hin. simpl. rewrite Hid. simpl.
    unfold prompted, set_stdin, set_stdout. simpl.
    rewrite <- !app_assoc. reflexivity.
  - intros id l2 rest Hid Hrest. subst rest0.
    unfold menu_choice. simpl.
    unfold update_email_flow, input, print, int_expr, try_except, bind.
    simpl. rewrite Hin. simpl. rewrite Hid. simpl.
    unfold prompted, set_stdin, set_stdout. simpl.
    rewrite <- !app_assoc. simpl.
    match goal with
    | |- context [updateStudentEmail id ?E ?W] =>
        destruct (updateStudentEmail_returns W id E)
          as [[b Hb]|(Hb & Hn & _)];
        destruct (updateStudentEmail id E W) as [r w1]
    end; simpl in Hb; subst r; simpl.
    + split; [reflexivity|]. split; [eauto|]. split; [eauto|].
      split; [reflexivity | discriminate].
    + split; [reflexivity|]. split; [auto|].
      split; [intros; congruence|].
      split; [intros [b' H]; discriminate | reflexivity].
Qed.

(** X2: in the branch for menu choice 4, an answer to the identifier prompt
    that is not an integer ends the branch at once: the invalid-identifier
    message is printed, the confirmation is never asked (the next line stays
    on the input) and the connection is left exactly as it was. *)
Theorem delete_student_flow_validates_id
  (w : World) (l1 : string) (rest0 : list Input) :
  stdin w = Line l1 :: rest0 ->
  py_int (py_strip l1) = None ->
  menu_choice "4" w
  = (Ok false,
     prompted [MsgDeleteHeading; MsgPrompt PDeleteId; MsgInvalidId] rest0 w).
Proof.
  intros Hin Hid.
  unfold menu_choice. simpl.
  unfold delete_student_flow, input, print, int_expr, try_except, bind.
  simpl. rewrite Hin. simpl. rewrite Hid. simpl.
  unfold prompted, set_stdin, set_stdout. simpl.
  rewrite <- !app_assoc. reflexivity.
Qed.

(* ================================================================== *)
(** * Further properties: deletion *)
(* ================================================================== *)

Lemma delete_where_absent (id : Z) (t : list Student) :
  existsb (has_id id) (delete_where id t) = false.
Proof.
  unfold delete_where. induction t as [|s t IH]; simpl; [reflexivity|].
  destruct (has_id id s) eqn:E; simpl; [exact IH|].
  rewrite E. exact IH.
Qed.

Lemma delete_where_none (id : Z) (t : list Student) :
  existsb (has_id id) t = false -> delete_where id t = t.
Proof.
  unfold delete_where. induction t as [|s t IH]; simpl; [reflexivity|].
  destruct (has_id id s); simpl; [discriminate|].
  intros H. rewrite (IH H). reflexivity.
Qed.

Lemma count_where_pos (id : Z) (t : list Student) :
  existsb (has_id id) t = true -> 0 < count_where id t.
Proof.
  intros H. destruct (filter_has_id_cons _ _ H) as (s & rest & Hf & _).
  unfold count_where. rewrite Hf. simpl. lia.
Qed.

(** The two ways [deleteStudent] ends for an identifier of the table, with
    the state of the connection in each. *)
Lemma deleteStudent_cases (w : World) (id : Z) :
  existsb (has_id id) (table (db w)) = true ->
  let r := fst (deleteStudent id w) in
  let w' := snd (deleteStudent id w) in
  (r = Ok true /\
   table (db w') = delete_where id (table (db w)) /\
   durable (db w') = delete_where id (table (db w)) /\
   rowcount (db w') = count_where id (table (db w)) /\
   tx_failed (db w') = false /\
   faults (db w') = tl (tl (tl (faults (db w)))) /\
   seq (db w') = seq (db w) /\
   log (db w')
   = log (db w) ++ [Exec (SelectById id); Exec (DeleteById id); Commit] /\
   exists s, In s (table (db w)) /\ student_id s = id /\
             stdout w'
             = stdout w ++ [MsgDeleted (first_name s) (last_name s) id
                              (email s)])
  \/
  (r = Ok false /\
   durable (db w') = durable (db w) /\
   table (db w') = durable (db w) /\
   tx_failed (db w') = false /\
   seq (db w') = seq (db w) /\
   (exists sent, log (db w') = log (db w) ++ sent ++ [Rollback]) /\
   exists err, stdout w' = stdout w ++ [MsgDeleteError (Error err)]).
Proof.
  stated_only.
  intros Hin.
  destruct (filter_has_id_cons _ _ Hin) as (s & rest & Hf & Hs).
  assert (Hs_in : In s (table (db w))).
  { assert (H : In s (filter (has_id id) (table (db w))))
      by (rewrite Hf; left; reflexivity).
    apply filter_In in H. tauto. }
  cbv zeta. unfold deleteStudent, try_except, bind, on_db.
  destruct (accepts (db w)) eqn:E.
  - rewrite !(cursor_execute_accepts (SelectById id) _ eq_refl E).
    destruct (accepts_true _ E) as [_ Etx].
    simpl. rewrite !Hf. simpl.
    unfold cursor_execute, next_fault. simpl. rewrite !Etx.
    destruct (hd false (tl (faults (db w)))) eqn:Ef1; simpl.
    + right. repeat split; eauto.
      exists [Exec (SelectById id); Exec (DeleteById id)].
      rewrite <- !app_assoc. reflexivity.
    + unfold connection_commit, next_fault. simpl. rewrite !Etx.
      destruct (hd false (tl (tl (faults (db w))))) eqn:Ef2; simpl.
      * right. repeat split; eauto.
        exists [Exec (SelectById id); Exec (DeleteById id); Commit].
        rewrite <- !app_assoc. reflexivity.
      * pose proof (count_where_pos _ _ Hin) as Hpos.
        apply Z.gtb_lt in Hpos. rewrite !Hpos. simpl.
        left. rewrite <- !app_assoc. simpl. repeat split; auto.
        exists s. repeat split; auto.
  - destruct (cursor_execute_refuses (SelectById id) _ eq_refl E)
      as (err & d' & H & Hd & Ht & Hq & Hfl & Hl).
    rewrite !H. simpl. rewrite Hd, Hl, Hq.
    right. repeat split; eauto.
    exists [Exec (SelectById id)]. rewrite <- !app_assoc. reflexivity.
Qed.

(** X3: for an identifier present in the table, [deleteStudent] has two
    outcomes.  It returns [True] after the delete and the commit went
    through: every row with that identifier is gone, all other rows are
    kept in place, and the change is committed.  Otherwise a database error
    was raised: the transaction is rolled back, the error is reported and
    [False] is returned; the "no student deleted" branch is never taken. *)
Theorem deleteStudent_existing (w : World) (id : Z) :
  In id (map student_id (table (db w))) ->
  let r := fst (deleteStudent id w) in
  let w' := snd (deleteStudent id w) in
  (r = Ok true /\
   table (db w') = delete_where id (table (db w)) /\
   durable (db w') = table (db w') /\
   ~ In id (map student_id (table (db w'))) /\
   0 < rowcount (db w') /\
   log (db w')
   = log (db w) ++ [Exec (SelectById id); Exec (DeleteById id); Commit] /\
   exists f l m, stdout w' = stdout w ++ [MsgDeleted f l id m])
  \/
  (r = Ok false /\
   durable (db w') = durable (db w) /\
   table (db w') = durable (db w) /\
   (exists sent, log (db w') = log (db w) ++ sent ++ [Rollback]) /\
   exists err, stdout w' = stdout w ++ [MsgDeleteError (Error err)]).
Proof.
  intros Hin. apply existsb_has_id in Hin.
  destruct (deleteStudent_cases w id Hin)
    as [(Hr & Ht & Hd & Hn & _ & _ & _ & Hl & s & _ & _ & Ho)
       |(Hr & Hd & Ht & _ & _ & Hl & Ho)].
  - left. cbv zeta. rewrite Ht, Hd, Hn. repeat split; auto.
    + rewrite <- existsb_has_id, delete_where_absent. discriminate.
    + apply count_where_pos, Hin.
    + eauto.
  - right. cbv zeta. repeat split; auto.
Qed.

(** X4: after [deleteStudent] returned [True] for [id], the listing obtained
    by the next query shows no row with that identifier and shows every
    other row of the table, in ascending order of identifier. *)
Theorem deleteStudent_then_listing (w : World) (id : Z) :
  fst (deleteStudent id w) = Ok true ->
  hd false (faults (db (snd (deleteStudent id w)))) = false ->
  exists rows,
    fst (getAllStudents (snd (deleteStudent id w))) = Ok (map RowStudent rows) /\
    Permutation rows (delete_where id (table (db w))) /\
    StronglySorted id_le rows /\
    ~ In id (map student_id rows).
Proof.
  intros Hok Hnext.
  assert (Hin : existsb (has_id id) (table (db w)) = true).
  { destruct (existsb (has_id id) (table (db w))) eqn:Ex; [reflexivity|].
    exfalso. revert Hok.
    unfold deleteStudent, try_except, bind, on_db.
    destruct (accepts (db w)) eqn:E.
    - rewrite !(cursor_execute_accepts (SelectById id) _ eq_refl E). simpl.
      rewrite !(filter_has_id_nil _ _ Ex). simpl. discriminate.
    - destruct (cursor_execute_refuses (SelectById id) _ eq_refl E)
        as (err & d' & H & _).
      rewrite !H. simpl. discriminate. }
  destruct (deleteStudent_cases w id Hin)
    as [(_ & Ht & _ & _ & Htx & _)|(Hr & _)]; [|congruence].
  set (w1 := snd (deleteStudent id w)) in *.
  assert (E : accepts (db w1) = true).
  { unfold accepts. rewrite Hnext, Htx. reflexivity. }
  exists (order_by_id (table (db w1))).
  split; [apply getAllStudents_accepts, E|].
  split; [rewrite <- Ht; apply order_by_id_perm|].
  split; [apply order_by_id_sorted|].
  rewrite <- existsb_has_id. intros Hex.
  destruct (filter_has_id_cons _ _ Hex) as (s & rest & Hf & _).
  pose proof (filter_perm (has_id id) _ _ (order_by_id_perm (table (db w1))))
    as Hp.
  rewrite Hf, Ht, (filter_has_id_nil _ _ (delete_where_absent id _)) in Hp.
  apply Permutation_sym, Permutation_nil in Hp. discriminate.
Qed.

(* ================================================================== *)
(** * Further properties: the email update and the listing *)
(* ================================================================== *)

Lemma filter_update_same (e : string) (id : Z) (t : list Student) :
  filter (has_id id) (update_email_where e id t)
  = map (with_email e) (filter (has_id id) t).
Proof.
  unfold update_email_where. induction t as [|s t IH]; simpl; [reflexivity|].
  destruct (has_id id s) eqn:E; simpl.
  - unfold has_id at 1. simpl. fold (has_id id s). rewrite E, IH. reflexivity.
  - rewrite E. exact IH.
Qed.

Lemma filter_update_others (e : string) (id : Z) (t : list Student) :
  filter (fun s => negb (has_id id s)) (update_email_where e id t)
  = filter (fun s => negb (has_id id s)) t.
Proof.
  unfold update_email_where. induction t as [|s t IH]; simpl; [reflexivity|].
  destruct (has_id id s) eqn:E; simpl.
  - unfold has_id at 1. simpl. fold (has_id id s). rewrite E. simpl. exact IH.
  - rewrite E. simpl. rewrite IH. reflexivity.
Qed.

Lemma update_email_fixed_columns (e : string) (id : Z) (t : list Student) :
  map fixed_columns (update_email_where e id t) = map fixed_columns t.
Proof.
  unfold update_email_where. rewrite map_map. apply map_ext.
  intros s. destruct (has_id id s); reflexivity.
Qed.

(** What a successful [updateStudentEmail] leaves behind. *)
Lemma updateStudentEmail_ok_inv (w : World) (id : Z) (e : string) :
  fst (updateStudentEmail id e w) = Ok true ->
  existsb (has_id id) (table (db w)) = true /\
  distinct_emails (update_email_where e id (table (db w))) = true /\
  table (db (snd (updateStudentEmail id e w)))
  = update_email_where e id (table (db w)) /\
  durable (db (snd (updateStudentEmail id e w)))
  = update_email_where e id (table (db w)) /\
  tx_failed (db (snd (updateStudentEmail id e w))) = false /\
  has_nul e = false.
Proof.
  unfold updateStudentEmail, update_report, try_except, bind, on_db.
  destruct (accepts (db w)) eqn:E.
  - rewrite !(cursor_execute_accepts (SelectById id) _ eq_refl E).
    destruct (accepts_true _ E) as [_ Etx]. simpl.
    destruct (existsb (has_id id) (table (db w))) eqn:Hin.
    + destruct (filter_has_id_cons _ _ Hin) as (s & rest & Hf & Hs).
      rewrite !Hf. simpl.
      unfold cursor_execute, next_fault. rewrite !adaptable_update.
      destruct (has_nul e) eqn:En; simpl; [discriminate|].
      rewrite !Etx.
      destruct (hd false (tl (faults (db w)))); simpl; [discriminate|].
      rewrite !Hin. simpl.
      destruct (distinct_emails (update_email_where e id (table (db w))))
        eqn:Ed; simpl; [|discriminate].
      unfold connection_commit, next_fault. simpl. rewrite !Etx.
      destruct (hd false (tl (tl (faults (db w))))); simpl; [discriminate|].
      rewrite !(update_email_exactly_one _ _ _ En Hin Ed). simpl.
      repeat split; auto.
    + rewrite !(filter_has_id_nil _ _ Hin). simpl. discriminate.
  - destruct (cursor_execute_refuses (SelectById id) _ eq_refl E)
      as (err & d' & H & _).
    rewrite !H. simpl. discriminate.
Qed.

(** X5: after [updateStudentEmail] returned [True] for [id] and [e], the
    listing obtained by the next query shows exactly one row with that
    identifier: the student's previous row with the email replaced by [e],
    which reads back as [e].  The rows with other identifiers are the ones
    the table had before. *)
Theorem updateStudentEmail_then_listing (w : World) (id : Z) (e : string) :
  fst (updateStudentEmail id e w) = Ok true ->
  hd false (faults (db (snd (updateStudentEmail id e w)))) = false ->
  exists rows s,
    fst (getAllStudents (snd (updateStudentEmail id e w)))
    = Ok (map RowStudent rows) /\
    In s (table (db w)) /\ student_id s = id /\
    filter (has_id id) rows = [with_email e s] /\
    Permutation (filter (fun r => negb (has_id id r)) rows)
      (filter (fun r => negb (has_id id r)) (table (db w))) /\
    email (with_email e s) = e.
Proof.
  stated_only.
  intros Hok Hnext.
  destruct (updateStudentEmail_ok_inv w id e Hok)
    as (Hin & Hd & Ht & _ & Htx & He).
  set (w1 := snd (updateStudentEmail id e w)) in *.
  assert (E : accepts (db w1) = true).
  { unfold accepts. rewrite Hnext, Htx. reflexivity. }
  destruct (filter_has_id_cons _ _ Hin) as (s & rest & Hf & Hs).
  assert (Hrest : rest = []).
  { pose proof (update_email_at_most_one _ _ _ He Hd) as Hle.
    rewrite Hf in Hle. simpl in Hle. destruct rest; [reflexivity|].
    simpl in Hle. lia. }
  subst rest.
  exists (order_by_id (table (db w1))), s.
  split; [apply getAllStudents_accepts, E|].
  split.
  { assert (H : In s (filter (has_id id) (table (db w))))
      by (rewrite Hf; left; reflexivity).
    apply filter_In in H. tauto. }
  split; [exact Hs|]. split; [|split].
  - apply Permutation_length_1_inv.
    eapply perm_trans;
      [|apply filter_perm, Permutation_sym, order_by_id_perm].
    rewrite Ht, filter_update_same, Hf. simpl. apply Permutation_refl.
  - eapply perm_trans; [apply filter_perm, order_by_id_perm|].
    rewrite Ht, filter_update_others. apply Permutation_refl.
  - apply email_with_email, He.
Qed.

(** X6: whatever its outcome, [updateStudentEmail] on a connection with no
    pending change leaves every row's identifier, first name, last name and
    enrollment date as they were, row by row: it adds no row, removes none,
    and writes no column but the email. *)
Theorem updateStudentEmail_only_email (w : World) (id : Z) (e : string) :
  clean (db w) ->
  map fixed_columns (table (db (snd (updateStudentEmail id e w))))
  = map fixed_columns (table (db w)).
Proof.
  intros Hc. unfold clean in Hc.
  unfold updateStudentEmail, update_report, try_except, bind, on_db.
  destruct (accepts (db w)) eqn:E.
  - rewrite !(cursor_execute_accepts (SelectById id) _ eq_refl E).
    destruct (accepts_true _ E) as [_ Etx]. simpl.
    destruct (filter (has_id id) (table (db w))) as [|s rest]; simpl;
      [reflexivity|].
    unfold cursor_execute, next_fault. rewrite !adaptable_update.
    destruct (has_nul e) eqn:En; simpl; [reflexivity|].
    rewrite !Etx.
    destruct (hd false (tl (faults (db w)))); simpl;
      [rewrite Hc; reflexivity|].
    match goal with |- context [if ?c then _ else _] => destruct c end;
      simpl; [rewrite Hc; reflexivity|].
    unfold connection_commit, next_fault. simpl. rewrite !Etx.
    destruct (hd false (tl (tl (faults (db w))))); simpl;
      [rewrite Hc; reflexivity|].
    match goal with |- context [if ?c then _ else _] => destruct c end;
      simpl; apply update_email_fixed_columns.
  - destruct (cursor_execute_refuses (SelectById id) _ eq_refl E)
      as (err & d' & H & Hd & _).
    rewrite !H. simpl. rewrite Hd, Hc. reflexivity.
Qed.

(** X7: when the server executes the query, [getAllStudents] prints the
    header, then one line for each row it returns, in the order of the
    returned list, then the number of rows, which is the number of rows of
    the table, then the footer; for an empty table it prints "no students
    found" in place of the lines and the total. *)
Theorem getAllStudents_output (w : World) :
  accepts (db w) = true ->
  exists l,
    fst (getAllStudents w) = Ok (map RowStudent l) /\
    List.length l = List.length (table (db w)) /\
    stdout (snd (getAllStudents w))
    = stdout w ++ [MsgListHeader]
      ++ match l with
         | [] => [MsgNoStudents]
         | _ => map MsgStudentRow l ++ [MsgTotal (List.length (table (db w)))]
         end
      ++ [MsgListFooter].
Proof.
  intros E. exists (order_by_id (table (db w))).
  split; [apply getAllStudents_accepts, E|].
  pose proof (Permutation_length (order_by_id_perm (table (db w)))) as Hlen.
  split; [exact Hlen|].
  unfold getAllStudents, try_except, bind, on_db.
  rewrite !(cursor_execute_accepts SelectAll _ eq_refl E). simpl.
  destruct (order_by_id (table (db w))) as [|s l] eqn:Eo; simpl.
  - rewrite <- !app_assoc. reflexivity.
  - unfold bind, print. simpl. rewrite !for_each_print_student. simpl.
    rewrite length_map, <- Hlen. simpl.
    rewrite <- !app_assoc. reflexivity.
Qed.

(* ================================================================== *)
(** * Further properties: failures and how the methods compose *)
(* ================================================================== *)

(** A statement sent in the failed state is refused and nothing changes. *)
Lemma refused_in_failed_tx (q : Query) (d : Db) :
  adaptable q = true ->
  tx_failed d = true ->
  exists e d',
    cursor_execute q d = (Raise (Error e), d') /\
    durable d' = durable d /\ seq d' = seq d.
Proof.
  intros Ha Htx.
  assert (E : accepts d = false).
  { unfold accepts. rewrite Htx. apply andb_false_r. }
  destruct (cursor_execute_refuses q d Ha E)
    as (e & d' & H & Hd & _ & Hs & _).
  eauto.
Qed.

(** X8: the handler of [getAllStudents] reports a failed query without
    rolling back, so the transaction stays in the failed state.  The next
    [addStudent] with texts that can be bound, [updateStudentEmail] or
    [deleteStudent] then fails whatever its arguments are: it returns [None]
    or [False], changes no row, and its own rollback leaves the connection
    consistent again.  An [addStudent] with a text that holds NUL raises
    [ValueError] before anything is sent, and the transaction stays in the
    failed state. *)
Theorem failed_listing_blocks_next_write (w : World) :
  consistent (db w) ->
  hd false (faults (db w)) = true ->
  let w1 := snd (getAllStudents w) in
  fst (getAllStudents w) = Ok [] /\
  tx_failed (db w1) = true /\
  (forall f l e d,
      adaptable (InsertStudent f l e d) = true ->
      fst (addStudent f l e d w1) = Ok None /\
      table (db (snd (addStudent f l e d w1))) = table (db w) /\
      consistent (db (snd (addStudent f l e d w1)))) /\
  (forall f l e d,
      adaptable (InsertStudent f l e d) = false ->
      addStudent f l e d w1 = (Raise ValueError, w1)) /\
  (forall id e,
      fst (updateStudentEmail id e w1) = Ok false /\
      table (db (snd (updateStudentEmail id e w1))) = table (db w) /\
      consistent (db (snd (updateStudentEmail id e w1)))) /\
  (forall id,
      fst (deleteStudent id w1) = Ok false /\
      table (db (snd (deleteStudent id w1))) = table (db w) /\
      consistent (db (snd (deleteStudent id w1)))).
Proof.
  stated_only.
  intros (Hc & Hw & Htx) Hf. unfold clean in Hc.
  assert (H1 : fst (getAllStudents w) = Ok [] /\
               tx_failed (db (snd (getAllStudents w))) = true /\
               durable (db (snd (getAllStudents w))) = durable (db w)).
  { unfold getAllStudents, try_except, bind, on_db, cursor_execute,
      next_fault. simpl. rewrite !Hf. simpl. auto. }
  destruct H1 as (Hr & Hfailed & Hd).
  cbv zeta. set (w1 := snd (getAllStudents w)) in *.
  split; [exact Hr|]. split; [exact Hfailed|].
  split; [|split; [|split]].
  - intros f l e d Ha.
    destruct (refused_in_failed_tx (InsertStudent f l e d) _ Ha Hfailed)
      as (err & d' & H & Hd' & _).
    unfold addStudent, try_except, bind, on_db. rewrite !H. simpl.
    unfold consistent, clean. simpl. rewrite Hd', Hd, <- Hc. tauto.
  - intros f l e d Ha. apply addStudent_unadaptable, Ha.
  - intros id e.
    destruct (refused_in_failed_tx (SelectById id) _ eq_refl Hfailed)
      as (err & d' & H & Hd' & _).
    unfold updateStudentEmail, try_except, bind, on_db. rewrite !H. simpl.
    unfold consistent, clean. simpl. rewrite Hd', Hd, <- Hc. tauto.
  - intros id.
    destruct (refused_in_failed_tx (SelectById id) _ eq_refl Hfailed)
      as (err & d' & H & Hd' & _).
    unfold deleteStudent, try_except, bind, on_db. rewrite !H. simpl.
    unfold consistent, clean. simpl. rewrite Hd', Hd, <- Hc. tauto.
Qed.

(** X9: the three methods that write keep the connection consistent,
    whatever their arguments and whatever the environment does: when they
    return, no change is pending, the transaction is not in the failed
    state, and identifiers and emails are pairwise distinct. *)
Theorem writes_keep_consistent (w : World) :
  consistent (db w) ->
  (forall f l e d, consistent (db (snd (addStudent f l e d w)))) /\
  (forall id e, consistent (db (snd (updateStudentEmail id e w)))) /\
  (forall id, consistent (db (snd (deleteStudent id w)))).
Proof.
  intros H. split; [|split]; intros.
  - apply consistent_addStudent, H.
  - apply consistent_updateStudentEmail, H.
  - apply consistent_deleteStudent, H.
Qed.

(** With the server executing its three calls, [deleteStudent] succeeds for
    an identifier of the table. *)
Lemma deleteStudent_calm (w : World) (id : Z) :
  existsb (has_id id) (table (db w)) = true ->
  tx_failed (db w) = false ->
  calm 3 (db w) ->
  fst (deleteStudent id w) = Ok true /\
  table (db (snd (deleteStudent id w))) = delete_where id (table (db w)) /\
  durable (db (snd (deleteStudent id w))) = delete_where id (table (db w)).
Proof.
  intros Hin Etx Hcalm.
  destruct (calm_3 _ Hcalm) as (Hf0 & Hf1 & Hf2).
  assert (E : accepts (db w) = true).
  { unfold accepts. rewrite Hf0, Etx. reflexivity. }
  destruct (filter_has_id_cons _ _ Hin) as (s & rest & Hf & Hs).
  pose proof (count_where_pos _ _ Hin) as Hpos. apply Z.gtb_lt in Hpos.
  unfold deleteStudent, try_except, bind, on_db.
  rewrite !(cursor_execute_accepts (SelectById id) _ eq_refl E).
  simpl. rewrite !Hf. simpl.
  unfold cursor_execute, next_fault. simpl. rewrite !Etx, !Hf1. simpl.
  unfold connection_commit, next_fault. simpl. rewrite !Etx, !Hf2. simpl.
  rewrite !Hpos. simpl. auto.
Qed.

(** X10: deleting the student that [addStudent] just added brings the table
    back: if [addStudent] returned [id] and the server executes the three
    calls of [deleteStudent id], the deletion returns [True] and the table,
    committed, is the one from before the insert. *)
Theorem addStudent_then_deleteStudent (w : World) (f l e d : string) (id : Z) :
  fst (addStudent f l e d w) = Ok (Some id) ->
  calm 3 (db (snd (addStudent f l e d w))) ->
  fst (deleteStudent id (snd (addStudent f l e d w))) = Ok true /\
  table (db (snd (deleteStudent id (snd (addStudent f l e d w)))))
  = table (db w) /\
  durable (db (snd (deleteStudent id (snd (addStudent f l e d w)))))
  = table (db w).
Proof.
  intros Hok Hcalm.
  destruct (addStudent_ok_inv w f l e d id Hok)
    as (dt & _ & _ & Hfresh & Ht & Htx & _).
  set (w1 := snd (addStudent f l e d w)) in *.
  assert (Hin : existsb (has_id id) (table (db w1)) = true).
  { rewrite Ht, existsb_app. simpl. unfold has_id at 2. simpl.
    rewrite Z.eqb_refl. apply orb_true_iff. right. reflexivity. }
  destruct (deleteStudent_calm w1 id Hin Htx Hcalm) as (Hr & Htab & Hdur).
  assert (Hback : delete_where id (table (db w1)) = table (db w)).
  { rewrite Ht. unfold delete_where. rewrite filter_app. simpl.
    unfold has_id at 2. simpl. rewrite Z.eqb_refl. simpl.
    rewrite app_nil_r. apply (delete_where_none _ _ Hfresh). }
  rewrite Htab, Hdur, Hback. auto.
Qed.

(* ================================================================== *)
(** * Further properties: the identifier sequence *)
(* ================================================================== *)

Lemma behind_le (n m : Z) (t : list Student) :
  n <= m ->
  Forall (fun s => student_id s <= n) t ->
  Forall (fun s => student_id s <= m) t.
Proof.
  intros Hle. apply Forall_impl. intros s Hs. lia.
Qed.

Lemma behind_update (n : Z) (e : string) (id : Z) (t : list Student) :
  Forall (fun s => student_id s <= n) t ->
  Forall (fun s => student_id s <= n) (update_email_where e id t).
Proof.
  unfold update_email_where. induction 1 as [|s t Hs Ht IH]; simpl.
  - constructor.
  - constructor; [|exact IH]. destruct (has_id id s); exact Hs.
Qed.

Lemma behind_delete (n : Z) (id : Z) (t : list Student) :
  Forall (fun s => student_id s <= n) t ->
  Forall (fun s => student_id s <= n) (delete_where id t).
Proof.
  unfold delete_where. induction 1 as [|s t Hs Ht IH]; simpl.
  - constructor.
  - destruct (has_id id s); simpl; [exact IH | constructor; assumption].
Qed.

Lemma behind_fresh (n : Z) (t : list Student) :
  Forall (fun s => student_id s <= n) t ->
  existsb (has_id (n + 1)) t = false.
Proof.
  induction 1 as [|s t Hs Ht IH]; simpl; [reflexivity|].
  rewrite IH, orb_false_r. unfold has_id. apply Z.eqb_neq. lia.
Qed.

Lemma sequenced_addStudent (w : World) (f l e d : string) :
  clean (db w) -> sequenced (db w) ->
  sequenced (db (snd (addStudent f l e d w))) /\
  seq (db w) <= seq (db (snd (addStudent f l e d w))).
Proof.
  intros Hc Hs. unfold clean in Hc. unfold sequenced in *.
  destruct (adaptable (InsertStudent f l e d)) eqn:Ha.
  - destruct (addStudent_cases w f l e d Ha)
      as [(_ & dt & _ & _ & Hd & Ht & _ & _ & _ & Hq & _)
         |(_ & _ & Hd & Ht & _ & _ & _ & Hq)].
    + rewrite Ht, Hd, Hq. split; [|lia]. apply Forall_app. split.
      * apply (behind_le (seq (db w))); [lia | exact Hs].
      * constructor; [simpl; lia | constructor].
    + rewrite Ht, <- Hc.
      destruct Hq as [Hq|Hq]; rewrite Hq; (split; [|lia]);
        apply (behind_le (seq (db w))); solve [lia | exact Hs].
  - rewrite (addStudent_unadaptable w _ _ _ _ Ha). simpl.
    split; [exact Hs | lia].
Qed.

Lemma sequenced_updateStudentEmail (w : World) (id : Z) (e : string) :
  clean (db w) -> sequenced (db w) ->
  sequenced (db (snd (updateStudentEmail id e w))) /\
  seq (db (snd (updateStudentEmail id e w))) = seq (db w).
Proof.
  intros Hc Hs. unfold clean in Hc. unfold sequenced in *.
  unfold updateStudentEmail, update_report, try_except, bind, on_db.
  destruct (accepts (db w)) eqn:E.
  - rewrite !(cursor_execute_accepts (SelectById id) _ eq_refl E).
    destruct (accepts_true _ E) as [_ Etx]. simpl.
    destruct (filter (has_id id) (table (db w))) as [|s rest]; simpl;
      [auto|].
    unfold cursor_execute, next_fault. rewrite !adaptable_update.
    destruct (has_nul e) eqn:En; simpl; [auto|].
    rewrite !Etx.
    destruct (hd false (tl (faults (db w)))); simpl;
      [rewrite <- Hc; auto|].
    match goal with |- context [if ?c then _ else _] => destruct c end;
      simpl; [rewrite <- Hc; auto|].
    unfold connection_commit, next_fault. simpl. rewrite !Etx.
    destruct (hd false (tl (tl (faults (db w))))); simpl;
      [rewrite <- Hc; auto|].
    match goal with |- context [if ?c then _ else _] => destruct c end;
      simpl; (split; [apply behind_update, Hs | reflexivity]).
  - destruct (cursor_execute_refuses (SelectById id) _ eq_refl E)
      as (err & d' & H & Hd & _ & Hq & _).
    rewrite !H. simpl. rewrite Hd, Hq, <- Hc. auto.
Qed.

Lemma sequenced_deleteStudent (w : World) (id : Z) :
  clean (db w) -> sequenced (db w) ->
  sequenced (db (snd (deleteStudent id w))) /\
  seq (db (snd (deleteStudent id w))) = seq (db w).
Proof.
  intros Hc Hs. unfold clean in Hc. unfold sequenced in *.
  unfold deleteStudent, try_except, bind, on_db.
  destruct (accepts (db w)) eqn:E.
  - rewrite !(cursor_execute_accepts (SelectById id) _ eq_refl E).
    destruct (accepts_true _ E) as [_ Etx]. simpl.
    destruct (filter (has_id id) (table (db w))) as [|s rest]; simpl;
      [auto|].
    unfold cursor_execute, next_fault. simpl. rewrite !Etx.
    destruct (hd false (tl (faults (db w)))); simpl;
      [rewrite <- Hc; auto|].
    unfold connection_commit, next_fault. simpl. rewrite !Etx.
    destruct (hd false (tl (tl (faults (db w))))); simpl;
      [rewrite <- Hc; auto|].
    match goal with |- context [if ?c then _ else _] => destruct c end;
      simpl; (split; [apply behind_delete, Hs | reflexivity]).
  - destruct (cursor_execute_refuses (SelectById id) _ eq_refl E)
      as (err & d' & H & Hd & _ & Hq & _).
    rewrite !H. simpl. rewrite Hd, Hq, <- Hc. auto.
Qed.

(** X11: identifiers stay behind the sequence.  On a connection with no
    pending change whose identifiers are all at most the last value of the
    sequence, each of the three writing methods leaves a table with the same
    property; the sequence never moves back, and only [addStudent] moves
    it. *)
Theorem identifiers_stay_behind_sequence (w : World) :
  clean (db w) -> sequenced (db w) ->
  (forall f l e d,
      sequenced (db (snd (addStudent f l e d w))) /\
      seq (db w) <= seq (db (snd (addStudent f l e d w)))) /\
  (forall id e,
      sequenced (db (snd (updateStudentEmail id e w))) /\
      seq (db (snd (updateStudentEmail id e w))) = seq (db w)) /\
  (forall id,
      sequenced (db (snd (deleteStudent id w))) /\
      seq (db (snd (deleteStudent id w))) = seq (db w)).
Proof.
  intros Hc Hs. split; [|split]; intros.
  - apply sequenced_addStudent; assumption.
  - apply sequenced_updateStudentEmail; assumption.
  - apply sequenced_deleteStudent; assumption.
Qed.

Lemma calm_2 (d : Db) :
  calm 2 d ->
  hd false (faults d) = false /\ hd false (tl (faults d)) = false.
Proof.
  intros H.
  pose proof (H 0%nat ltac:(lia)) as H0.
  pose proof (H 1%nat ltac:(lia)) as H1.
  destruct (faults d) as [|a [|b fs]]; simpl in *; auto.
Qed.

(** X12: when [addStudent] is sure to succeed.  If the identifiers of the
    table are behind the sequence and the sequence is not used up, the
    transaction is not in the failed state, the texts can be bound, the
    server executes the insert and the commit and accepts the date text, and
    the email is not in the table, then [addStudent] returns the next value
    of the sequence, which is greater than every identifier of the table,
    and the committed table is the previous one followed by the new row,
    whose columns are the given texts and the date. *)
Theorem addStudent_succeeds (w : World) (f l e d : string) (dt : Date) :
  sequenced (db w) ->
  seq (db w) + 1 <= max_integer ->
  tx_failed (db w) = false ->
  calm 2 (db w) ->
  adaptable (InsertStudent f l e d) = true ->
  date_in d = Some dt ->
  ~ In e (map email (table (db w))) ->
  fst (addStudent f l e d w) = Ok (Some (seq (db w) + 1)) /\
  Forall (fun s => student_id s < seq (db w) + 1) (table (db w)) /\
  durable (db (snd (addStudent f l e d w)))
  = table (db w) ++ [mkStudent (seq (db w) + 1) f l e dt] /\
  table (db (snd (addStudent f l e d w)))
  = table (db w) ++ [mkStudent (seq (db w) + 1) f l e dt] /\
  fixed_columns (mkStudent (seq (db w) + 1) f l e dt)
  = (seq (db w) + 1, f, l, dt) /\
  email (mkStudent (seq (db w) + 1) f l e dt) = e.
Proof.
  intros Hs Hmax Etx Hcalm Ha Hd He.
  destruct (calm_2 _ Hcalm) as (Hf0 & Hf1).
  assert (E : accepts (db w) = true).
  { unfold accepts. rewrite Hf0, Etx. reflexivity. }
  pose proof (behind_fresh _ _ Hs) as Hfresh.
  assert (Hc : insert_commits e d (db w) = true).
  { apply insert_commits_true. repeat split; auto.
    - rewrite Hd. discriminate.
    - rewrite <- existsb_has_id. congruence. }
  destruct (mkStudent_columns (seq (db w) + 1) f l e d dt Ha)
    as (C1 & C2 & C3 & C4 & C5).
  destruct (addStudent_cases w f l e d Ha)
    as [(_ & dt' & Hdt & Hr & Hdur & Ht & _)|(Hc' & _)]; [|congruence].
  assert (dt' = dt) by congruence. subst dt'.
  split; [exact Hr|]. split.
  { eapply Forall_impl; [|exact Hs]. intros s H. simpl in H. lia. }
  split; [exact Hdur|]. split; [rewrite Ht; exact Hdur|].
  split; [|exact C4].
  unfold fixed_columns. rewrite C1, C2, C3, C5. reflexivity.
Qed.

(* ================================================================== *)
(** * Further properties: how the shell ends *)
(* ================================================================== *)

Lemma within_ret (P : Exn -> World -> Prop) {A} (a : A) : within P (ret a).
Proof. intros w. exact I. Qed.

Lemma within_print (P : Exn -> World -> Prop) (m : Msg) : within P (print m).
Proof. intros w. exact I. Qed.

Lemma within_raise (P : Exn -> World -> Prop) {A} (e : Exn) :
  (forall w, P e w) -> within P (@raise A e).
Proof. intros H w. simpl. apply H. Qed.

Lemma within_weaken (P Q : Exn -> World -> Prop) {A} (m : M A) :
  (forall e w, P e w -> Q e w) -> within P m -> within Q m.
Proof.
  intros H Hm w. specialize (Hm w).
  destruct (fst (m w)); auto.
Qed.

Lemma within_returns (P : Exn -> World -> Prop) {A} (m : M A) :
  (forall w, exists a, fst (m w) = Ok a) -> within P m.
Proof. intros H w. destruct (H w) as [a Ha]. rewrite Ha. exact I. Qed.

Lemma within_bind (P : Exn -> World -> Prop) {A B} (m : M A) (k : A -> M B) :
  within P m -> (forall a, within P (k a)) -> within P (bind m k).
Proof.
  intros Hm Hk w. unfold bind. specialize (Hm w).
  destruct (m w) as [[a|e|] w1]; simpl in *; auto.
  apply Hk.
Qed.

Lemma within_try_except (P Q : Exn -> World -> Prop) {A}
  (body : M A) (c : Exn -> bool) (h : Exn -> M A) :
  within P body ->
  (forall e w, P e w -> c e = false -> Q e w) ->
  (forall e, within Q (h e)) ->
  within Q (try_except body c h).
Proof.
  intros Hb Hpq Hh w. unfold try_except. specialize (Hb w).
  destruct (body w) as [[a|e|] w1]; simpl in *; auto.
  destruct (c e) eqn:Ec; simpl; [apply Hh | auto].
Qed.

Lemma within_input (p : Prompt) : within input_failure (input p).
Proof.
  intros w. unfold input, bind, print. simpl.
  destruct (stdin w) as [|[l|] ls] eqn:E; simpl.
  - left. split; [reflexivity | exact E].
  - exact I.
  - right. reflexivity.
Qed.

Lemma input_failure_or_value (e : Exn) (w : World) :
  input_failure e w -> input_or_value e w.
Proof. intros H. left. exact H. Qed.

Lemma value_only_or_input (e : Exn) (w : World) :
  value_only e w -> input_or_value e w.
Proof. intros H. right. exact H. Qed.

(** [except ValueError] lets [EOFError] through and nothing else. *)
Lemma input_or_value_uncaught (e : Exn) (w : World) :
  input_or_value e w -> is_ValueError e = false -> eof_only e w.
Proof.
  intros [[H|H]|H] Hc; [exact H | subst e; discriminate | ].
  unfold value_only in H. subst e. discriminate.
Qed.

Lemma value_only_uncaught (e : Exn) (w : World) :
  value_only e w -> is_ValueError e = false -> input_failure e w.
Proof. unfold value_only. intros -> H. discriminate. Qed.

Lemma eof_only_input_failure (e : Exn) (w : World) :
  eof_only e w -> input_failure e w.
Proof. intros H. left. exact H. Qed.

Lemma within_addStudent (f l e d : string) :
  within value_only (addStudent f l e d).
Proof.
  intros w. destruct (adaptable (InsertStudent f l e d)) eqn:Ha.
  - destruct (addStudent_returns w f l e d Ha) as [o Ho]. rewrite Ho. exact I.
  - rewrite (addStudent_unadaptable w _ _ _ _ Ha). reflexivity.
Qed.

Lemma within_updateStudentEmail (id : Z) (e : string) :
  within value_only (updateStudentEmail id e).
Proof.
  intros w.
  destruct (updateStudentEmail_returns w id e) as [[b Hb]|[Hb _]];
    rewrite Hb; [exact I | reflexivity].
Qed.

(** No database error and no malformed answer leaves a branch of the menu:
    the exceptions that do are those of [input] outside the [try] blocks of
    the branches. *)
Lemma within_menu_choice (choice : string) :
  within input_failure (menu_choice choice).
Proof.
  assert (Hin : forall p, within input_or_value (input p)).
  { intros p. eapply within_weaken; [apply input_failure_or_value|].
    apply within_input. }
  unfold menu_choice.
  repeat match goal with
         | |- within _ (if ?c then _ else _) => destruct c
         end;
    apply within_bind; try (intro; apply within_ret);
    try apply within_print.
  - apply within_returns, getAllStudents_returns.
  - unfold add_student_flow.
    repeat (apply within_bind;
            [first [apply within_print | apply within_input] | intro]).
    eapply within_try_except;
      [ | apply value_only_uncaught | intro; apply within_print].
    apply within_bind; [|intro; apply within_bind; [|intro; apply within_ret]].
    + unfold strptime_stmt. destruct (py_strptime _).
      * apply within_ret.
      * apply within_raise. intros w. reflexivity.
    + apply within_addStudent.
  - unfold update_email_flow.
    apply within_bind; [apply within_print | intro].
    eapply within_weaken; [apply eof_only_input_failure|].
    eapply within_try_except;
      [ | apply input_or_value_uncaught | intro; apply within_print].
    apply within_bind; [apply Hin | intro].
    apply within_bind; [|intro].
    + unfold int_expr. destruct (py_int _).
      * apply within_ret.
      * apply within_raise. intros w. right. reflexivity.
    + apply within_bind; [apply Hin | intro].
      apply within_bind; [|intro; apply within_ret].
      eapply within_weaken; [apply value_only_or_input|].
      apply within_updateStudentEmail.
  - unfold delete_student_flow.
    apply within_bind; [apply within_print | intro].
    eapply within_weaken; [apply eof_only_input_failure|].
    eapply within_try_except;
      [ | apply input_or_value_uncaught | intro; apply within_print].
    apply within_bind; [apply Hin | intro].
    apply within_bind; [|intro].
    + unfold int_expr. destruct (py_int _).
      * apply within_ret.
      * apply within_raise. intros w. right. reflexivity.
    + apply within_bind; [apply Hin | intro].
      match goal with |- within _ (if ?c then _ else _) => destruct c end.
      * apply within_bind; [|intro; apply within_ret].
        apply within_returns. intros w. apply deleteStudent_returns.
      * apply within_print.
Qed.

Lemma within_main_loop (fuel : nat) : within input_failure (main_loop fuel).
Proof.
  induction fuel as [|fuel IH]; simpl.
  - intros w. exact I.
  - apply within_bind; [apply within_print | intro].
    apply within_bind; [apply within_input | intro].
    apply within_bind; [apply within_menu_choice | intros stop].
    destruct stop; [apply within_ret|].
    apply within_bind; [apply within_input | intro]. exact IH.
Qed.

(** Only menu choice 5 stops the loop, and it prints the farewell. *)
Lemma menu_choice_stop (choice : string) (w w' : World) :
  menu_choice choice w = (Ok true, w') ->
  w' = set_stdout (stdout w ++ [MsgExiting]) w.
Proof.
  unfold menu_choice.
  repeat match goal with
         | |- context [if ?c then _ else _] => destruct c
         end;
    unfold bind, ret;
    try match goal with
        | |- (let (_, _) := ?m w in _) = _ -> _ =>
            destruct (m w) as [[a|e|] w1]; intros H; discriminate H
        end.
  unfold print. intros H. inversion H. reflexivity.
Qed.

Lemma main_loop_ok (fuel : nat) :
  forall w w', main_loop fuel w = (Ok tt, w') ->
               exists pre, stdout w' = pre ++ [MsgExiting].
Proof.
  induction fuel as [|fuel IH]; intros w w'; simpl; [discriminate|].
  unfold bind at 1, display_menu at 1, print at 1.
  unfold bind at 1.
  destruct (input PChoice (set_stdout (stdout w ++ [MsgMenu]) w))
    as [[l| |] w1]; try discriminate.
  unfold bind at 1.
  destruct (menu_choice (py_strip l) w1) as [[stop| |] w2] eqn:Em;
    try discriminate.
  destruct stop.
  - apply menu_choice_stop in Em. unfold ret. intros H. inversion H; subst.
    simpl. eauto.
  - unfold bind at 1.
    destruct (input PContinue w2) as [[l2| |] w3]; try discriminate.
    apply IH.
Qed.

Lemma filter_close_snoc (l : list Stmt) (s : Stmt) :
  is_close s = false -> filter is_close (l ++ [s]) = filter is_close l.
Proof.
  intros H. rewrite filter_app. simpl. rewrite H. apply app_nil_r.
Qed.

Lemma keeps_open_cursor_execute (q : Query) : keeps_open (cursor_execute q).
Proof.
  intros d. destruct (adaptable q) eqn:Ha;
    [|rewrite (cursor_execute_unadaptable q d Ha); reflexivity].
  destruct (accepts d) eqn:E.
  - rewrite (cursor_execute_accepts q d Ha E).
    destruct q; simpl; try (apply filter_close_snoc; reflexivity).
    + destruct (date_in date); simpl;
        [|apply filter_close_snoc; reflexivity].
      repeat match goal with
             | |- context [if ?c then _ else _] => destruct c
             end;
        simpl; apply filter_close_snoc; reflexivity.
    + match goal with |- context [if ?c then _ else _] => destruct c end;
        simpl; apply filter_close_snoc; reflexivity.
  - destruct (cursor_execute_refuses q d Ha E)
      as (e & d' & H & _ & _ & _ & _ & Hl).
    rewrite H. simpl. rewrite Hl. apply filter_close_snoc. reflexivity.
Qed.

Lemma keeps_open_cursor_fetchone : keeps_open cursor_fetchone.
Proof. intros d. unfold cursor_fetchone. destruct (results d); reflexivity. Qed.

Lemma keeps_open_cursor_fetchall : keeps_open cursor_fetchall.
Proof. intros d. reflexivity. Qed.

Lemma keeps_open_cursor_rowcount : keeps_open cursor_rowcount.
Proof. intros d. reflexivity. Qed.

Lemma keeps_open_connection_commit : keeps_open connection_commit.
Proof.
  intros d. unfold connection_commit, next_fault. simpl.
  destruct (hd false (faults d)); simpl;
    [apply filter_close_snoc; reflexivity|].
  destruct (tx_failed d); simpl; apply filter_close_snoc; reflexivity.
Qed.

Lemma keeps_open_connection_rollback : keeps_open connection_rollback.
Proof. intros d. simpl. apply filter_close_snoc. reflexivity. Qed.

Lemma no_close_ret {A} (a : A) : no_close (ret a).
Proof. intros w. reflexivity. Qed.

Lemma no_close_raise {A} (e : Exn) : no_close (@raise A e).
Proof. intros w. reflexivity. Qed.

Lemma no_close_print (m : Msg) : no_close (print m).
Proof. intros w. reflexivity. Qed.

Lemma no_close_input (p : Prompt) : no_close (input p).
Proof.
  intros w. unfold input, bind, print. simpl.
  destruct (stdin w) as [|[l|] ls]; reflexivity.
Qed.

Lemma no_close_on_db {A} (f : Db -> Result A * Db) :
  keeps_open f -> no_close (on_db f).
Proof.
  intros Hf w. unfold on_db. specialize (Hf (db w)).
  destruct (f (db w)) as [r d]. simpl in *. exact Hf.
Qed.

Lemma no_close_bind {A B} (m : M A) (k : A -> M B) :
  no_close m -> (forall a, no_close (k a)) -> no_close (bind m k).
Proof.
  intros Hm Hk w. unfold bind. specialize (Hm w).
  destruct (m w) as [[a|e|] w1]; simpl in *; auto.
  rewrite (Hk a w1). exact Hm.
Qed.

Lemma no_close_try_except {A} (body : M A) (c : Exn -> bool)
  (h : Exn -> M A) :
  no_close body -> (forall e, no_close (h e)) ->
  no_close (try_except body c h).
Proof.
  intros Hb Hh w. unfold try_except. specialize (Hb w).
  destruct (body w) as [[a|e|] w1]; simpl in *; auto.
  destruct (c e); simpl; auto.
  rewrite (Hh e w1). exact Hb.
Qed.

Lemma no_close_for_each {A} (l : list A) (body : A -> M unit) :
  (forall a, no_close (body a)) -> no_close (for_each l body).
Proof.
  intros Hb. induction l as [|x l IH]; simpl.
  - apply no_close_ret.
  - apply no_close_bind; [apply Hb | intros _; exact IH].
Qed.

Create HintDb open_db.

#[local] Hint Resolve keeps_open_cursor_execute keeps_open_cursor_fetchone
  keeps_open_cursor_fetchall keeps_open_cursor_rowcount
  keeps_open_connection_commit keeps_open_connection_rollback
  no_close_ret no_close_raise no_close_print no_close_input no_close_on_db
  : open_db.

(** Structural descent through a computation for [no_close] goals. *)
Ltac no_close_step :=
  match goal with
  | |- no_close (bind _ _) => apply no_close_bind; [|intro]
  | |- no_close (try_except _ _ _) => apply no_close_try_except; [|intro]
  | |- no_close (for_each _ _) => apply no_close_for_each; intro
  | |- no_close (if ?c then _ else _) => destruct c
  | |- no_close (match ?x with _ => _ end) => destruct x
  | |- no_close _ => solve [auto with open_db]
  end.

Lemma no_close_menu_choice (choice : string) : no_close (menu_choice choice).
Proof.
  unfold menu_choice, getAllStudents, print_student, add_student_flow,
    addStudent, returned_id, update_email_flow, updateStudentEmail,
    update_report, delete_student_flow, deleteStudent, unpack_info,
    strptime_stmt, int_expr.
  repeat no_close_step.
Qed.

Lemma no_close_main_loop (fuel : nat) : no_close (main_loop fuel).
Proof.
  induction fuel as [|fuel IH]; simpl.
  - intros w. reflexivity.
  - apply no_close_bind; [apply no_close_print | intro].
    apply no_close_bind; [apply no_close_input | intro].
    apply no_close_bind; [apply no_close_menu_choice | intros stop].
    destruct stop; [apply no_close_ret|].
    apply no_close_bind; [apply no_close_input | intro]. exact IH.
Qed.


(* ================================================================== *)
(** * Further properties: an email that is already taken *)
(* ================================================================== *)

Lemma distinct_emails_inj (t : list Student) (x y : Student) :
  distinct_emails t = true -> In x t -> In y t ->
  email x = email y -> x = y.
Proof.
  stated_only.
  induction t as [|z t IH]; simpl; [tauto|].
  rewrite andb_true_iff, negb_true_iff.
  intros [Hz Ht] [Hx|Hx] [Hy|Hy] Heq; subst; auto.
  - exfalso. apply not_true_iff_false in Hz. apply Hz.
    apply existsb_has_email. rewrite Heq. apply in_map. exact Hy.
  - exfalso. apply not_true_iff_false in Hz. apply Hz.
    apply existsb_has_email. rewrite <- Heq. apply in_map. exact Hx.
Qed.

(** Giving a student the email of another one breaks the constraint. *)
Lemma update_email_clash (e : string) (id : Z) (t : list Student)
  (other : Student) :
  existsb (has_id id) t = true ->
  In other t -> email other = e -> student_id other <> id ->
  distinct_emails (update_email_where e id t) = false.
Proof.
  stated_only.
  intros Hin Ho He Hid.
  assert (En : has_nul e = false).
  { rewrite <- He. apply (text_ok (email_text other)). }
  apply not_true_iff_false. intros Hd.
  destruct (filter_has_id_cons _ _ Hin) as (s & rest & Hf & Hs).
  assert (Hs_in : In s t).
  { assert (H : In s (filter (has_id id) t))
      by (rewrite Hf; left; reflexivity).
    apply filter_In in H. tauto. }
  assert (H1 : In (with_email e s) (update_email_where e id t)).
  { unfold update_email_where. apply in_map_iff. exists s.
    split; [|exact Hs_in]. unfold has_id. rewrite Hs, Z.eqb_refl.
    reflexivity. }
  assert (H2 : In other (update_email_where e id t)).
  { unfold update_email_where. apply in_map_iff. exists other.
    split; [|exact Ho]. unfold has_id.
    destruct (student_id other =? id) eqn:E; [|reflexivity].
    apply Z.eqb_eq in E. contradiction. }
  assert (Heq : with_email e s = other).
  { apply (distinct_emails_inj _ _ _ Hd H1 H2).
    rewrite (email_with_email _ _ En). congruence. }
  apply Hid. rewrite <- Heq. simpl. exact Hs.
Qed.

(** What a failed [updateStudentEmail] leaves behind. *)
Lemma updateStudentEmail_fail_inv (w : World) (id : Z) (e : string) :
  clean (db w) ->
  fst (updateStudentEmail id e w) = Ok false ->
  table (db (snd (updateStudentEmail id e w))) = table (db w) /\
  durable (db (snd (updateStudentEmail id e w))) = durable (db w).
Proof.
  intros Hc. unfold clean in Hc.
  unfold updateStudentEmail, update_report, try_except, bind, on_db.
  destruct (accepts (db w)) eqn:E.
  - rewrite !(cursor_execute_accepts (SelectById id) _ eq_refl E).
    destruct (accepts_true _ E) as [_ Etx]. simpl.
    destruct (existsb (has_id id) (table (db w))) eqn:Hin.
    + destruct (filter_has_id_cons _ _ Hin) as (s & rest & Hf & Hs).
      rewrite !Hf. simpl.
      unfold cursor_execute, next_fault. rewrite !adaptable_update.
      destruct (has_nul e) eqn:En; simpl; [discriminate|].
      rewrite !Etx.
      destruct (hd false (tl (faults (db w)))); simpl; [auto|].
      rewrite !Hin. simpl.
      destruct (distinct_emails (update_email_where e id (table (db w))))
        eqn:Ed; simpl; [|auto].
      unfold connection_commit, next_fault. simpl. rewrite !Etx.
      destruct (hd false (tl (tl (faults (db w))))); simpl; [auto|].
      rewrite !(update_email_exactly_one _ _ _ En Hin Ed). simpl.
      discriminate.
    + rewrite !(filter_has_id_nil _ _ Hin). simpl. auto.
  - destruct (cursor_execute_refuses (SelectById id) _ eq_refl E)
      as (err & d' & H & Hd & _).
    rewrite !H. simpl. rewrite Hd. auto.
Qed.

(** X14: the email of one student cannot be given to another.  If [e] is
    the email of a row whose identifier is not [id], then, on a connection
    with no pending change, [updateStudentEmail id e] returns [False] and
    leaves the table and its committed content as they were, whatever the
    environment does. *)
Theorem updateStudentEmail_taken_email
  (w : World) (id : Z) (e : string) (other : Student) :
  clean (db w) ->
  In other (table (db w)) ->
  email other = e ->
  student_id other <> id ->
  fst (updateStudentEmail id e w) = Ok false /\
  table (db (snd (updateStudentEmail id e w))) = table (db w) /\
  durable (db (snd (updateStudentEmail id e w))) = durable (db w).
Proof.
  intros Hc Ho He Hid.
  assert (Hr : fst (updateStudentEmail id e w) = Ok false).
  { destruct (updateStudentEmail_returns w id e)
      as [[[|] Hb]|(_ & Hn & _)]; [|exact Hb|].
    - exfalso.
      destruct (updateStudentEmail_ok_inv w id e Hb) as (Hin & Hd & _).
      rewrite (update_email_clash e id _ other Hin Ho He Hid) in Hd.
      discriminate.
    - exfalso. rewrite <- He in Hn. unfold email in Hn.
      rewrite (text_ok (email_text other)) in Hn. discriminate. }
  split; [exact Hr|].
  apply updateStudentEmail_fail_inv; assumption.
Qed.

End Application.

(* ================================================================== *)
(** * The properties at concrete inputs *)
(* ================================================================== *)

(** Below, the built-ins are the ASCII ones of [PyStr] and [PyDate], and the
    server reads a date text as [PyDate.strptime] does; every input is
    ASCII. *)

(** The scenario of the specification: one insert, an update of the email,
    a deletion confirmed with "yes", and the exit. *)
Example scenario_run :
  let w := world_of [] 0
             ["2"; "Ada"; "Lovelace"; "ada@x.com"; "1990-01-01"; "";
              "3"; "1"; "ada@new.com"; "";
              "4"; "1"; "yes"; "";
              "5"] in
  let run := main PyDate.strptime PyStr.strip PyStr.lower PyStr.int
               PyDate.strptime w in
  fst run = Ok tt /\
  durable (db (snd run)) = [] /\
  seq (db (snd run)) = 1 /\
  log (db (snd run))
  = [Exec (InsertStudent "Ada" "Lovelace" "ada@x.com" "1990-01-01"); Commit;
     Exec (SelectById 1); Exec (UpdateEmail "ada@new.com" 1); Commit;
     Exec (SelectById 1); Exec (DeleteById 1); Commit;
     CloseCursor; CloseConnection] /\
  In (MsgAdded "Ada" "Lovelace" 1) (stdout (snd run)) /\
  In (MsgUpdated "Ada" "Lovelace" "ada@x.com" "ada@new.com")
    (stdout (snd run)) /\
  In (MsgDeleted "Ada" "Lovelace" 1 "ada@new.com") (stdout (snd run)).
Proof. vm_compute. intuition. Qed.

Example listing_is_ordered :
  fst (getAllStudents PyDate.strptime (world_of [bob; ada] 2 []))
  = Ok [RowStudent ada; RowStudent bob].
Proof. reflexivity. Qed.

Example second_insert_with_same_email :
  let w := world_of [ada] 1 [] in
  let r := addStudent PyDate.strptime "Ann" "Other" "ada@x.com" "2001-01-01" w in
  fst r = Ok None /\ durable (db (snd r)) = [ada] /\
  table (db (snd r)) = [ada] /\
  stdout (snd r) = [MsgAddError (Error UniqueViolation)].
Proof. vm_compute. intuition. Qed.

(** An insert when the sequence has given its last value. *)
Example insert_at_sequence_limit :
  let w := world_of [ada] 2147483647 [] in
  let r := addStudent PyDate.strptime "Ann" "Other" "ann@x.com" "2001-01-01" w in
  fst r = Ok None /\ durable (db (snd r)) = [ada] /\
  seq (db (snd r)) = 2147483647 /\
  stdout (snd r) = [MsgAddError (Error SequenceLimit)].
Proof. vm_compute. intuition. Qed.

(** Bytes that do not decode at the first prompt end the program. *)
Example undecodable_choice :
  let w := mkWorld true (db_of [ada] 1) [Undecodable; Line "5"] [] in
  let run := main PyDate.strptime PyStr.strip PyStr.lower PyStr.int
               PyDate.strptime w in
  fst run = Ok tt /\
  stdout (snd run)
  = [MsgBanner; MsgConnected; MsgMenu; MsgPrompt PChoice;
     MsgErrorOccurred UnicodeDecodeError; MsgThanks] /\
  log (db (snd run)) = [].
Proof. vm_compute. intuition. Qed.

(** Bytes that do not decode at the identifier prompt of choice 4 are taken
    for an invalid identifier, and the loop goes on. *)
Example undecodable_identifier :
  let w := mkWorld true (db_of [ada] 1)
             [Line "4"; Undecodable; Line ""; Line "5"] [] in
  let run := main PyDate.strptime PyStr.strip PyStr.lower PyStr.int
               PyDate.strptime w in
  fst run = Ok tt /\
  In MsgInvalidId (stdout (snd run)) /\
  In MsgExiting (stdout (snd run)) /\
  log (db (snd run)) = [CloseCursor; CloseConnection].
Proof. vm_compute. intuition. Qed.

Lemma main_exit_status_witness :
  server_up (world_down ["1"]) = false /\
  exit_status
    (fst (main PyDate.strptime PyStr.strip PyStr.lower PyStr.int
            PyDate.strptime (world_down ["1"]))) = Some 0 /\
  db (snd (main PyDate.strptime PyStr.strip PyStr.lower PyStr.int
             PyDate.strptime (world_down ["1"]))) = db (world_down ["1"]).
Proof.
  split; [reflexivity|].
  split.
  - exact (proj1 (main_exit_status PyDate.strptime PyStr.strip PyStr.lower
                    PyStr.int PyDate.strptime (world_down ["1"]))).
  - apply (proj2 (main_exit_status PyDate.strptime PyStr.strip PyStr.lower
                    PyStr.int PyDate.strptime (world_down ["1"]))).
    reflexivity.
Defined.

Lemma updateStudentEmail_absent_witness :
  ~ In 7 (map student_id (table (db (world_of [ada; bob] 2 [])))) /\
  clean (db (world_of [ada; bob] 2 [])) /\
  accepts (db (world_of [ada; bob] 2 [])) = true /\
  fst (updateStudentEmail PyDate.strptime 7 "new@x.com"
         (world_of [ada; bob] 2 [])) = Ok false /\
  stdout (snd (updateStudentEmail PyDate.strptime 7 "new@x.com"
                 (world_of [ada; bob] 2 []))) = [MsgNotFound 7].
Proof.
  assert (H1 : ~ In 7 (map student_id (table (db (world_of [ada; bob] 2 [])))))
    by (simpl; lia).
  assert (H2 : clean (db (world_of [ada; bob] 2 []))) by reflexivity.
  split; [exact H1|]. split; [exact H2|]. split; [reflexivity|].
  destruct (updateStudentEmail_absent PyDate.strptime
              (world_of [ada; bob] 2 []) 7 "new@x.com" H1 H2)
    as (Hr & _ & _ & _ & _ & Hmsg).
  split; [exact Hr | exact (Hmsg eq_refl)].
Defined.

Lemma deleteStudent_absent_witness :
  ~ In 7 (map student_id (table (db (world_of [ada; bob] 2 [])))) /\
  clean (db (world_of [ada; bob] 2 [])) /\
  accepts (db (world_of [ada; bob] 2 [])) = true /\
  fst (deleteStudent PyDate.strptime 7 (world_of [ada; bob] 2 [])) = Ok false /\
  stdout (snd (deleteStudent PyDate.strptime 7 (world_of [ada; bob] 2 [])))
  = [MsgNotFound 7].
Proof.
  assert (H1 : ~ In 7 (map student_id (table (db (world_of [ada; bob] 2 [])))))
    by (simpl; lia).
  assert (H2 : clean (db (world_of [ada; bob] 2 []))) by reflexivity.
  split; [exact H1|]. split; [exact H2|]. split; [reflexivity|].
  destruct (deleteStudent_absent PyDate.strptime
              (world_of [ada; bob] 2 []) 7 H1 H2)
    as (Hr & _ & _ & _ & _ & Hmsg).
  split; [exact Hr | exact (Hmsg eq_refl)].
Defined.

(** [addStudent] on the table of Ada and Bob: a new student is committed
    with identifier 3; Ada's email is refused and the table stays; a first
    name with NUL raises [ValueError] and nothing happens. *)
Lemma addStudent_spec_witness :
  (fst (addStudent PyDate.strptime "Cy" "Young" "cy@x.com" "2023-09-01"
          (world_of [ada; bob] 2 [])) = Ok (Some 3) /\
   durable (db (snd (addStudent PyDate.strptime "Cy" "Young" "cy@x.com"
                       "2023-09-01" (world_of [ada; bob] 2 []))))
   = [ada; bob; mkStudent 3 "Cy" "Young" "cy@x.com" (mkDate 2023 9 1)] /\
   log (db (snd (addStudent PyDate.strptime "Cy" "Young" "cy@x.com"
                   "2023-09-01" (world_of [ada; bob] 2 []))))
   = [Exec (InsertStudent "Cy" "Young" "cy@x.com" "2023-09-01"); Commit]) /\
  (In "ada@x.com" (map email (table (db (world_of [ada; bob] 2 [])))) /\
   fst (addStudent PyDate.strptime "Ann" "Other" "ada@x.com" "2001-01-01"
          (world_of [ada; bob] 2 [])) = Ok None /\
   durable (db (snd (addStudent PyDate.strptime "Ann" "Other" "ada@x.com"
                       "2001-01-01" (world_of [ada; bob] 2 []))))
   = [ada; bob]) /\
  (adaptable (InsertStudent nul_text "Other" "ann@x.com" "2001-01-01") = false /\
   addStudent PyDate.strptime nul_text "Other" "ann@x.com" "2001-01-01"
     (world_of [ada; bob] 2 [])
   = (Raise ValueError, world_of [ada; bob] 2 [])).
Proof.
  split; [|split].
  - destruct (addStudent_spec PyDate.strptime (world_of [ada; bob] 2 [])
                "Cy" "Young" "cy@x.com" "2023-09-01") as (Hok & _).
    assert (H1 : ~ In (seq (db (world_of [ada; bob] 2 [])) + 1)
                   (map student_id (table (db (world_of [ada; bob] 2 [])))))
      by (simpl; lia).
    assert (H2 : ~ In "cy@x.com"
                   (map email (table (db (world_of [ada; bob] 2 [])))))
      by (simpl; intros [H|[H|[]]]; discriminate).
    assert (H3 : seq (db (world_of [ada; bob] 2 [])) + 1 <= max_integer)
      by (vm_compute; discriminate).
    destruct (Hok (mkDate 2023 9 1) eq_refl eq_refl eq_refl eq_refl H3 H1 H2)
      as (Hr & Hd & _ & Hl & _).
    split; [exact Hr|]. split; [exact Hd | exact Hl].
  - assert (H : In "ada@x.com"
                  (map email (table (db (world_of [ada; bob] 2 [])))))
      by (simpl; left; reflexivity).
    destruct (addStudent_spec PyDate.strptime (world_of [ada; bob] 2 [])
                "Ann" "Other" "ada@x.com" "2001-01-01")
      as (_ & _ & Herr & Hdup & _).
    split; [exact H|]. split; [exact (Hdup eq_refl H)|].
    destruct (Herr eq_refl) as [[id Hid]|(_ & Hd & _)]; [|exact Hd].
    rewrite (Hdup eq_refl H) in Hid. discriminate.
  - split; [reflexivity|].
    destruct (addStudent_spec PyDate.strptime (world_of [ada; bob] 2 [])
                nul_text "Other" "ann@x.com" "2001-01-01")
      as (_ & _ & _ & _ & Hnul).
    destruct (Hnul eq_refl) as [Hr Hw].
    rewrite (surjective_pairing (addStudent _ _ _ _ _ _)), Hr, Hw.
    reflexivity.
Defined.

Lemma getAllStudents_spec_witness :
  accepts (db (world_of [bob; ada] 2 [])) = true /\
  accepts (db (mkWorld true (db_failing [ada] 1) [] [])) = false /\
  (exists l,
      fst (getAllStudents PyDate.strptime (world_of [bob; ada] 2 []))
      = Ok (map RowStudent l) /\
      Permutation l [bob; ada] /\ StronglySorted id_le l) /\
  fst (getAllStudents PyDate.strptime (mkWorld true (db_failing [ada] 1) [] []))
  = Ok [].
Proof.
  split; [reflexivity|]. split; [reflexivity|]. split.
  - apply (getAllStudents_spec PyDate.strptime (world_of [bob; ada] 2 [])).
    reflexivity.
  - apply (getAllStudents_spec PyDate.strptime
             (mkWorld true (db_failing [ada] 1) [] [])).
    reflexivity.
Defined.

Lemma addStudent_then_lookup_witness :
  fst (addStudent PyDate.strptime "Cy" "Young" "cy@x.com" "2023-1-5"
         (world_of [ada; bob] 2 [])) = Ok (Some 3) /\
  exists dt rows,
    PyDate.strptime "2023-1-5" = Some dt /\
    fst (getAllStudents PyDate.strptime
           (snd (addStudent PyDate.strptime "Cy" "Young" "cy@x.com" "2023-1-5"
                   (world_of [ada; bob] 2 []))))
    = Ok (map RowStudent rows) /\
    filter (has_id 3) rows = [mkStudent 3 "Cy" "Young" "cy@x.com" dt] /\
    first_name (mkStudent 3 "Cy" "Young" "cy@x.com" dt) = "Cy" /\
    last_name (mkStudent 3 "Cy" "Young" "cy@x.com" dt) = "Young" /\
    email (mkStudent 3 "Cy" "Young" "cy@x.com" dt) = "cy@x.com" /\
    enrollment_date (mkStudent 3 "Cy" "Young" "cy@x.com" dt) = dt.
Proof.
  split; [reflexivity|].
  apply (addStudent_then_lookup PyDate.strptime (world_of [ada; bob] 2 [])
           "Cy" "Young" "cy@x.com" "2023-1-5" 3); reflexivity.
Defined.


Lemma updateStudentEmail_same_email_witness :
  wf_table (table (db (world_of [ada; bob] 2 []))) /\
  In ada (table (db (world_of [ada; bob] 2 []))) /\
  fst (updateStudentEmail PyDate.strptime 1 "ada@x.com"
         (world_of [ada; bob] 2 [])) = Ok true.
Proof.
  assert (H1 : wf_table (table (db (world_of [ada; bob] 2 []))))
    by (split; reflexivity).
  assert (H2 : In ada (table (db (world_of [ada; bob] 2 []))))
    by (simpl; left; reflexivity).
  assert (H3 : calm 3 (db (world_of [ada; bob] 2 []))).
  { intros k _. simpl. destruct k; reflexivity. }
  split; [exact H1|]. split; [exact H2|].
  exact (proj1 (updateStudentEmail_same_email PyDate.strptime
                  (world_of [ada; bob] 2 []) ada H1 H2 eq_refl H3)).
Defined.

(** Choice 2 with a date that does not parse, with one that does, and with
    one that does next to a first name that holds NUL. *)
Lemma add_student_flow_validates_date_witness :
  (PyDate.strptime (PyStr.strip "01/09/2023") = None /\
   db (snd (menu_choice PyDate.strptime PyStr.strip PyStr.lower PyStr.int
              PyDate.strptime "2"
              (world_of [ada] 1 ["Cy"; "Young"; "cy@x.com"; "01/09/2023"])))
   = db_of [ada] 1) /\
  (PyDate.strptime (PyStr.strip " 2023-09-01 ") <> None /\
   durable
     (db (snd (menu_choice PyDate.strptime PyStr.strip PyStr.lower PyStr.int
                 PyDate.strptime "2"
                 (world_of [ada] 1
                    ["Cy"; "Young"; "cy@x.com"; " 2023-09-01 "]))))
   = [ada; mkStudent 2 "Cy" "Young" "cy@x.com" (mkDate 2023 9 1)]) /\
  (adaptable
     (InsertStudent (PyStr.strip nul_text) (PyStr.strip "Young")
        (PyStr.strip "cy@x.com") (PyStr.strip "2023-09-01")) = false /\
   db (snd (menu_choice PyDate.strptime PyStr.strip PyStr.lower PyStr.int
              PyDate.strptime "2"
              (world_of [ada] 1 [nul_text; "Young"; "cy@x.com"; "2023-09-01"])))
   = db_of [ada] 1 /\
   stdout
     (snd (menu_choice PyDate.strptime PyStr.strip PyStr.lower PyStr.int
             PyDate.strptime "2"
             (world_of [ada] 1 [nul_text; "Young"; "cy@x.com"; "2023-09-01"])))
   = [MsgAddHeading; MsgPrompt PFirstName; MsgPrompt PLastName;
      MsgPrompt PEmail; MsgPrompt PDate; MsgInvalidDate]).
Proof.
  split; [|split].
  - split; [reflexivity|].
    destruct (add_student_flow_validates_date PyDate.strptime PyStr.strip
                PyStr.lower PyStr.int PyDate.strptime
                (world_of [ada] 1 ["Cy"; "Young"; "cy@x.com"; "01/09/2023"])
                "Cy" "Young" "cy@x.com" "01/09/2023" [] eq_refl)
      as (_ & Hbad & _).
    exact (proj1 (Hbad eq_refl)).
  - assert (H : PyDate.strptime (PyStr.strip " 2023-09-01 ") <> None)
      by (vm_compute; discriminate).
    split; [exact H|].
    destruct (add_student_flow_validates_date PyDate.strptime PyStr.strip
                PyStr.lower PyStr.int PyDate.strptime
                (world_of [ada] 1 ["Cy"; "Young"; "cy@x.com"; " 2023-09-01 "])
                "Cy" "Young" "cy@x.com" " 2023-09-01 " [] eq_refl)
      as (_ & _ & Hgo & _).
    rewrite (Hgo H eq_refl). reflexivity.
  - assert (H : PyDate.strptime (PyStr.strip "2023-09-01") <> None)
      by (vm_compute; discriminate).
    split; [reflexivity|].
    destruct (add_student_flow_validates_date PyDate.strptime PyStr.strip
                PyStr.lower PyStr.int PyDate.strptime
                (world_of [ada] 1 [nul_text; "Young"; "cy@x.com"; "2023-09-01"])
                nul_text "Young" "cy@x.com" "2023-09-01" [] eq_refl)
      as (_ & _ & _ & Hnul).
    destruct (Hnul H eq_refl) as [Hdb Hw].
    split; [exact Hdb|]. rewrite Hw. reflexivity.
Defined.

Lemma delete_student_flow_confirmation_witness :
  PyStr.int (PyStr.strip " 1 ") = Some 1 /\
  PyStr.lower (PyStr.strip "no") <> "yes" /\
  db (snd (menu_choice PyDate.strptime PyStr.strip PyStr.lower PyStr.int
             PyDate.strptime "4" (world_of [ada] 1 [" 1 "; "no"])))
  = db_of [ada] 1 /\
  PyStr.lower (PyStr.strip " Yes") = "yes" /\
  durable
    (db (snd (menu_choice PyDate.strptime PyStr.strip PyStr.lower PyStr.int
                PyDate.strptime "4"
                (world_of [ada] 1 [" 1 "; " Yes"])))) = [].
Proof.
  assert (H : PyStr.lower (PyStr.strip "no") <> "yes")
    by (vm_compute; discriminate).
  split; [reflexivity|]. split; [exact H|]. split.
  - apply (delete_student_flow_confirmation PyDate.strptime PyStr.strip
             PyStr.lower PyStr.int PyDate.strptime
             (world_of [ada] 1 [" 1 "; "no"]) " 1 " "no" [] 1 eq_refl eq_refl).
    exact H.
  - split; [reflexivity|].
    rewrite (proj1 (proj2
      (delete_student_flow_confirmation PyDate.strptime PyStr.strip
         PyStr.lower PyStr.int PyDate.strptime
         (world_of [ada] 1 [" 1 "; " Yes"]) " 1 " " Yes" [] 1
         eq_refl eq_refl)) eq_refl).
    reflexivity.
Defined.

(** C8, as stated, fails: the text "2023-1-5" is not of the form YYYY-MM-DD,
    yet [strptime] accepts it, [addStudent] is called and the insert is
    sent and committed. *)
Lemma add_student_flow_accepts_unpadded_date :
  let w := world_of [ada] 1 ["Cy"; "Young"; "cy@x.com"; "2023-1-5"] in
  let w' := snd (menu_choice PyDate.strptime PyStr.strip PyStr.lower
                   PyStr.int PyDate.strptime "2" w) in
  iso_yyyy_mm_dd "2023-1-5" = false /\
  PyDate.strptime (PyStr.strip "2023-1-5") = Some (mkDate 2023 1 5) /\
  log (db w')
  = [Exec (InsertStudent "Cy" "Young" "cy@x.com" "2023-1-5"); Commit] /\
  durable (db w')
  = [ada; mkStudent 2 "Cy" "Young" "cy@x.com" (mkDate 2023 1 5)] /\
  ~ In MsgInvalidDate (stdout w').
Proof.
  vm_compute. split; [reflexivity|]. split; [reflexivity|].
  split; [reflexivity|]. split; [reflexivity|].
  intros H. repeat (destruct H as [H|H]; [discriminate|]). exact H.
Qed.

(** C9, as stated, fails: the answer "YES" is not the string "yes", yet the
    deletion is not cancelled: [deleteStudent] runs and student 1 is gone. *)
Lemma delete_student_flow_uppercase_yes :
  let w := world_of [ada; bob] 2 ["1"; "YES"] in
  let w' := snd (menu_choice PyDate.strptime PyStr.strip PyStr.lower
                   PyStr.int PyDate.strptime "4" w) in
  "YES" <> "yes" /\
  In (Exec (DeleteById 1)) (log (db w')) /\
  durable (db w') = [bob] /\
  ~ In MsgCancelled (stdout w').
Proof.
  vm_compute. split; [discriminate|].
  split; [right; left; reflexivity|].
  split; [reflexivity|].
  intros H. repeat (destruct H as [H|H]; [discriminate|]). exact H.
Qed.

(* ================================================================== *)
(** * The further properties at concrete inputs *)
(* ================================================================== *)

(** Choice 3 with an answer that is not an integer, with an integer and a
    new email, and with an integer and an email that holds NUL. *)
Lemma update_email_flow_validates_id_witness :
  (PyStr.int (PyStr.strip "abc") = None /\
   menu_choice PyDate.strptime PyStr.strip PyStr.lower PyStr.int
     PyDate.strptime "3" (world_of [ada] 1 ["abc"; "x@y.z"])
   = (Ok false,
      prompted [MsgUpdateHeading; MsgPrompt PStudentId; MsgInvalidId]
        [Line "x@y.z"] (world_of [ada] 1 ["abc"; "x@y.z"]))) /\
  (PyStr.int (PyStr.strip " 1") = Some 1 /\
   durable
     (db (snd (menu_choice PyDate.strptime PyStr.strip PyStr.lower PyStr.int
                 PyDate.strptime "3"
                 (world_of [ada] 1 [" 1"; " ada@new.com "]))))
   = [with_email "ada@new.com" ada]) /\
  (has_nul (PyStr.strip nul_text) = true /\
   stdout
     (snd (menu_choice PyDate.strptime PyStr.strip PyStr.lower PyStr.int
             PyDate.strptime "3" (world_of [ada] 1 ["1"; nul_text])))
   = [MsgUpdateHeading; MsgPrompt PStudentId; MsgPrompt PNewEmail;
      MsgInvalidId] /\
   log
     (db (snd (menu_choice PyDate.strptime PyStr.strip PyStr.lower PyStr.int
                 PyDate.strptime "3" (world_of [ada] 1 ["1"; nul_text]))))
   = [Exec (SelectById 1)]).
Proof.
  split; [|split].
  - split; [reflexivity|].
    apply (update_email_flow_validates_id PyDate.strptime PyStr.strip
             PyStr.lower PyStr.int PyDate.strptime
             (world_of [ada] 1 ["abc"; "x@y.z"]) "abc" [Line "x@y.z"]
             eq_refl).
    reflexivity.
  - split; [reflexivity|].
    destruct (proj2
      (update_email_flow_validates_id PyDate.strptime PyStr.strip
         PyStr.lower PyStr.int PyDate.strptime
         (world_of [ada] 1 [" 1"; " ada@new.com "]) " 1"
         [Line " ada@new.com "] eq_refl) 1 " ada@new.com " [] eq_refl eq_refl)
      as (_ & _ & Hret & Hok & _).
    rewrite (Hok (Hret eq_refl)). reflexivity.
  - split; [reflexivity|].
    destruct (proj2
      (update_email_flow_validates_id PyDate.strptime PyStr.strip
         PyStr.lower PyStr.int PyDate.strptime
         (world_of [ada] 1 ["1"; nul_text]) "1"
         [Line nul_text] eq_refl) 1 nul_text [] eq_refl eq_refl)
      as (_ & _ & _ & _ & Hval).
    rewrite (Hval eq_refl). split; reflexivity.
Defined.

Lemma delete_student_flow_validates_id_witness :
  PyStr.int (PyStr.strip "one") = None /\
  menu_choice PyDate.strptime PyStr.strip PyStr.lower PyStr.int
    PyDate.strptime "4" (world_of [ada] 1 ["one"; "yes"])
  = (Ok false,
     prompted [MsgDeleteHeading; MsgPrompt PDeleteId; MsgInvalidId]
       [Line "yes"] (world_of [ada] 1 ["one"; "yes"])).
Proof.
  split; [reflexivity|].
  apply (delete_student_flow_validates_id PyDate.strptime PyStr.strip
           PyStr.lower PyStr.int PyDate.strptime
           (world_of [ada] 1 ["one"; "yes"]) "one" [Line "yes"]
           eq_refl eq_refl).
Defined.

Lemma deleteStudent_existing_witness :
  In 1 (map student_id (table (db (world_of [ada; bob] 2 [])))) /\
  (fst (deleteStudent PyDate.strptime 1 (world_of [ada; bob] 2 [])) = Ok true \/
   fst (deleteStudent PyDate.strptime 1 (world_of [ada; bob] 2 [])) = Ok false).
Proof.
  assert (H : In 1 (map student_id (table (db (world_of [ada; bob] 2 [])))))
    by (simpl; lia).
  split; [exact H|].
  destruct (deleteStudent_existing PyDate.strptime
              (world_of [ada; bob] 2 []) 1 H) as [H1|H1].
  - left. exact (proj1 H1).
  - right. exact (proj1 H1).
Defined.

Lemma deleteStudent_then_listing_witness :
  fst (deleteStudent PyDate.strptime 1 (world_of [bob; ada] 2 [])) = Ok true /\
  exists rows,
    fst (getAllStudents PyDate.strptime
           (snd (deleteStudent PyDate.strptime 1 (world_of [bob; ada] 2 []))))
    = Ok (map RowStudent rows) /\
    Permutation rows (delete_where 1 [bob; ada]) /\
    StronglySorted id_le rows /\
    ~ In 1 (map student_id rows).
Proof.
  split; [reflexivity|].
  apply (deleteStudent_then_listing PyDate.strptime
           (world_of [bob; ada] 2 []) 1); reflexivity.
Defined.

Lemma updateStudentEmail_then_listing_witness :
  fst (updateStudentEmail PyDate.strptime 1 "ada@new.com"
         (world_of [bob; ada] 2 [])) = Ok true /\
  exists rows s,
    fst (getAllStudents PyDate.strptime
           (snd (updateStudentEmail PyDate.strptime 1 "ada@new.com"
                   (world_of [bob; ada] 2 []))))
    = Ok (map RowStudent rows) /\
    In s [bob; ada] /\ student_id s = 1 /\
    filter (has_id 1) rows = [with_email "ada@new.com" s] /\
    Permutation (filter (fun r => negb (has_id 1 r)) rows)
      (filter (fun r => negb (has_id 1 r)) [bob; ada]) /\
    email (with_email "ada@new.com" s) = "ada@new.com".
Proof.
  split; [reflexivity|].
  apply (updateStudentEmail_then_listing PyDate.strptime
           (world_of [bob; ada] 2 []) 1 "ada@new.com"); reflexivity.
Defined.

Lemma updateStudentEmail_only_email_witness :
  clean (db (world_of [ada; bob] 2 [])) /\
  map fixed_columns
    (table (db (snd (updateStudentEmail PyDate.strptime 2 "bob@new.com"
                       (world_of [ada; bob] 2 [])))))
  = map fixed_columns [ada; bob].
Proof.
  split; [reflexivity|].
  apply (updateStudentEmail_only_email PyDate.strptime
           (world_of [ada; bob] 2 []) 2 "bob@new.com").
  reflexivity.
Defined.

Lemma getAllStudents_output_witness :
  accepts (db (world_of [bob; ada] 2 [])) = true /\
  exists l,
    fst (getAllStudents PyDate.strptime (world_of [bob; ada] 2 []))
    = Ok (map RowStudent l) /\
    List.length l = 2%nat /\
    stdout (snd (getAllStudents PyDate.strptime (world_of [bob; ada] 2 [])))
    = [] ++ [MsgListHeader]
      ++ match l with
         | [] => [MsgNoStudents]
         | _ => map MsgStudentRow l ++ [MsgTotal 2]
         end
      ++ [MsgListFooter].
Proof.
  split; [reflexivity|].
  apply (getAllStudents_output PyDate.strptime (world_of [bob; ada] 2 [])).
  reflexivity.
Defined.

(** After a listing whose query failed: an insert is refused, and an insert
    of a first name with NUL raises [ValueError]. *)
Lemma failed_listing_blocks_next_write_witness :
  consistent (db (mkWorld true (db_failing [ada] 1) [] [])) /\
  hd false (faults (db (mkWorld true (db_failing [ada] 1) [] []))) = true /\
  fst (addStudent PyDate.strptime "Cy" "Young" "cy@x.com" "2023-09-01"
         (snd (getAllStudents PyDate.strptime
                 (mkWorld true (db_failing [ada] 1) [] []))))
  = Ok None /\
  fst (addStudent PyDate.strptime nul_text "Young" "cy@x.com" "2023-09-01"
         (snd (getAllStudents PyDate.strptime
                 (mkWorld true (db_failing [ada] 1) [] []))))
  = Raise ValueError.
Proof.
  assert (H1 : consistent (db (mkWorld true (db_failing [ada] 1) [] [])))
    by (repeat split; reflexivity).
  split; [exact H1|]. split; [reflexivity|].
  destruct (failed_listing_blocks_next_write PyDate.strptime
              (mkWorld true (db_failing [ada] 1) [] []) H1 eq_refl)
    as (_ & _ & Hadd & Hnul & _).
  split.
  - exact (proj1 (Hadd "Cy" "Young" "cy@x.com" "2023-09-01" eq_refl)).
  - rewrite (Hnul nul_text "Young" "cy@x.com" "2023-09-01" eq_refl).
    reflexivity.
Defined.

Lemma writes_keep_consistent_witness :
  consistent (db (world_of [ada; bob] 2 [])) /\
  consistent
    (db (snd (deleteStudent PyDate.strptime 1 (world_of [ada; bob] 2 [])))).
Proof.
  assert (H1 : consistent (db (world_of [ada; bob] 2 [])))
    by (repeat split; reflexivity).
  split; [exact H1|].
  apply (writes_keep_consistent PyDate.strptime (world_of [ada; bob] 2 []) H1).
Defined.

Lemma addStudent_then_deleteStudent_witness :
  fst (addStudent PyDate.strptime "Cy" "Young" "cy@x.com" "2023-09-01"
         (world_of [ada; bob] 2 [])) = Ok (Some 3) /\
  table
    (db (snd (deleteStudent PyDate.strptime 3
                (snd (addStudent PyDate.strptime "Cy" "Young" "cy@x.com"
                        "2023-09-01" (world_of [ada; bob] 2 []))))))
  = [ada; bob].
Proof.
  split; [reflexivity|].
  apply (addStudent_then_deleteStudent PyDate.strptime
           (world_of [ada; bob] 2 []) "Cy" "Young" "cy@x.com" "2023-09-01" 3).
  - reflexivity.
  - intros k _. vm_compute. destruct k; reflexivity.
Defined.

Lemma identifiers_stay_behind_sequence_witness :
  clean (db (world_of [ada; bob] 2 [])) /\
  sequenced (db (world_of [ada; bob] 2 [])) /\
  sequenced
    (db (snd (addStudent PyDate.strptime "Cy" "Young" "cy@x.com" "2023-09-01"
                (world_of [ada; bob] 2 [])))).
Proof.
  assert (H1 : clean (db (world_of [ada; bob] 2 []))) by reflexivity.
  assert (H2 : sequenced (db (world_of [ada; bob] 2 []))).
  { unfold sequenced. simpl. repeat constructor; simpl; lia. }
  split; [exact H1|]. split; [exact H2|].
  apply (identifiers_stay_behind_sequence PyDate.strptime
           (world_of [ada; bob] 2 []) H1 H2).
Defined.

Lemma addStudent_succeeds_witness :
  sequenced (db (world_of [ada; bob] 2 [])) /\
  seq (db (world_of [ada; bob] 2 [])) + 1 <= max_integer /\
  adaptable (InsertStudent "Cy" "Young" "cy@x.com" "2023-09-01") = true /\
  PyDate.strptime "2023-09-01" = Some (mkDate 2023 9 1) /\
  ~ In "cy@x.com" (map email (table (db (world_of [ada; bob] 2 [])))) /\
  fst (addStudent PyDate.strptime "Cy" "Young" "cy@x.com" "2023-09-01"
         (world_of [ada; bob] 2 [])) = Ok (Some 3).
Proof.
  assert (H1 : sequenced (db (world_of [ada; bob] 2 []))).
  { unfold sequenced. simpl. repeat constructor; simpl; lia. }
  assert (H2 : ~ In "cy@x.com"
                 (map email (table (db (world_of [ada; bob] 2 []))))).
  { simpl. intros [H|[H|[]]]; discriminate. }
  assert (H3 : calm 2 (db (world_of [ada; bob] 2 []))).
  { intros k _. simpl. destruct k; reflexivity. }
  assert (H4 : seq (db (world_of [ada; bob] 2 [])) + 1 <= max_integer)
    by (vm_compute; discriminate).
  split; [exact H1|]. split; [exact H4|]. split; [reflexivity|].
  split; [reflexivity|]. split; [exact H2|].
  exact (proj1 (addStudent_succeeds PyDate.strptime
                  (world_of [ada; bob] 2 []) "Cy" "Young" "cy@x.com"
                  "2023-09-01" (mkDate 2023 9 1) H1 H4 eq_refl H3 eq_refl
                  eq_refl H2)).
Defined.


Lemma updateStudentEmail_taken_email_witness :
  clean (db (world_of [ada; bob] 2 [])) /\
  In bob (table (db (world_of [ada; bob] 2 []))) /\
  student_id bob <> 1 /\
  fst (updateStudentEmail PyDate.strptime 1 "bob@x.com"
         (world_of [ada; bob] 2 [])) = Ok false.
Proof.
  assert (H1 : In bob (table (db (world_of [ada; bob] 2 []))))
    by (simpl; right; left; reflexivity).
  assert (H2 : student_id bob <> 1) by (simpl; lia).
  split; [reflexivity|]. split; [exact H1|]. split; [exact H2|].
  exact (proj1 (updateStudentEmail_taken_email PyDate.strptime
                  (world_of [ada; bob] 2 []) 1 "bob@x.com" bob
                  eq_refl H1 eq_refl H2)).
Defined.
